(** * A shallow embedding of the aom-rs AV1 encoder wrapper

    The crate wraps libaom: [src/core/config.rs] (the configuration builder),
    [src/core/encoder.rs] (the encoder handle and the output-packet decode)
    and [src/utils.rs] (frame and buffer marshalling).

    Conventions of the model:
    - [usize], [u32] and [u64] values are [N], [i32] and [i64] values are [Z];
      raw pointers are addresses in [N] ([0] is the null pointer);
    - native memory is a total map from addresses to bytes;
    - an [f64] that the code only copies is kept as its 64-bit pattern;
    - a Rust panic is the [Panic] outcome, carrying the panic message;
    - a call into libaom is an event appended to a trace, and what the call
      returns is given by an oracle over the trace of earlier calls, so every
      statement below holds for every behaviour of the native library. *)

From Stdlib Require Import ZArith NArith List Lia.
From stdpp Require Import base gmap strings pretty.
Import ListNotations.

Open Scope N_scope.

(** ** Panics *)

Inductive outcome (A : Type) : Type :=
| Ret (a : A)
| Panic (msg : string).
Arguments Ret {A} a.
Arguments Panic {A} msg.

Definition obind {A B} (m : outcome A) (k : A -> outcome B) : outcome B :=
  match m with
  | Ret a => k a
  | Panic s => Panic s
  end.

Notation "'let*' x := m 'in' k" := (obind m (fun x => k))
  (at level 200, x name, m at level 100, k at level 200).

(** Rust's [Result]. *)
Inductive result (T E : Type) : Type :=
| Ok (v : T)
| Err (e : E).
Arguments Ok {T E} v.
Arguments Err {T E} e.

Definition unwrap_msg : string := "called `Option::unwrap()` on a `None` value".

(** [Option::unwrap]. *)
Definition unwrap {A} (o : option A) : outcome A :=
  match o with
  | Some a => Ret a
  | None => Panic unwrap_msg
  end.

(** ** Native memory and fixed buffers *)

Definition memory := N -> Byte.byte.

(** [aom_fixed_buf_t]: a pointer and a size in bytes. *)
Record aom_fixed_buf_t := mk_fixed_buf {
  buf : N;
  sz : N
}.

(** [ptr::copy_nonoverlapping(src, dst, n)] followed by [set_len(n)] on a
    fresh vector: the vector holds the [n] bytes at [src], in order.  The
    allocation of [Vec::with_capacity] is taken to succeed. *)
Fixpoint copy_nonoverlapping (mem : memory) (src : N) (n : nat) : list Byte.byte :=
  match n with
  | O => []
  | S k => mem src :: copy_nonoverlapping mem (src + 1) k
  end.

(** [utils::to_buffer]. *)
Definition to_buffer (mem : memory) (b : aom_fixed_buf_t) : list Byte.byte :=
  copy_nonoverlapping mem b.(buf) (N.to_nat b.(sz)).

(** ** Output packets *)

(** [av_data::timeinfo::TimeInfo] (the fields the crate reads or writes). *)
Module TimeInfo.
Record TimeInfo := mk {
  pts : option Z;
  dts : option Z;
  duration : option N
}.
Definition default : TimeInfo := mk None None None.
End TimeInfo.

(** [av_data::packet::Packet]. *)
Module Packet.
Record Packet := mk {
  data : list Byte.byte;
  pos : option N;
  stream_index : Z;
  t : TimeInfo.TimeInfo;
  is_key : bool;
  is_corrupted : bool
}.
(** [Packet::with_capacity]: an empty packet; the capacity is not observable. *)
Definition with_capacity (_ : N) : Packet :=
  mk [] None (-1)%Z TimeInfo.default false false.
End Packet.

(** The [frame] member of the packet union of libaom. *)
Module FramePkt.
Record aom_codec_cx_pkt_frame := mk {
  buf : N;
  sz : N;
  pts : Z;
  duration : N;
  flags : N;
  partition_id : Z;
  vis_frame_size : N
}.
End FramePkt.

(** The [psnr] member of the packet union of libaom; each array is the list
    of its elements, an [f64] as its bit pattern. *)
Record aom_psnr_pkt := mk_psnr_pkt {
  pkt_samples : list N;
  pkt_psnr : list N;
  pkt_sse : list N;
  pkt_samples_hbd : list N;
  pkt_sse_hbd : list N;
  pkt_psnr_hbd : list N
}.

(** The packet union [data]: reading a member reads that view of the
    union, so the union is modelled by one view per member. *)
Record aom_codec_cx_pkt_data := mk_pkt_data {
  frame : FramePkt.aom_codec_cx_pkt_frame;
  twopass_stats : aom_fixed_buf_t;
  firstpass_mb_stats : aom_fixed_buf_t;
  psnr : aom_psnr_pkt;
  raw : aom_fixed_buf_t
}.

(** [aom_codec_cx_pkt]. *)
Record aom_codec_cx_pkt := mk_pkt {
  kind : N;
  pkt_data : aom_codec_cx_pkt_data
}.

(** [enum aom_codec_cx_pkt_kind] of [aom_encoder.h]. *)
Definition aom_codec_cx_pkt_kind_AOM_CODEC_CX_FRAME_PKT : N := 0.
Definition aom_codec_cx_pkt_kind_AOM_CODEC_STATS_PKT : N := 1.
Definition aom_codec_cx_pkt_kind_AOM_CODEC_FPMB_STATS_PKT : N := 2.
Definition aom_codec_cx_pkt_kind_AOM_CODEC_PSNR_PKT : N := 3.
Definition aom_codec_cx_pkt_kind_AOM_CODEC_CUSTOM_PKT : N := 256.

(** [AOM_FRAME_IS_KEY] of [aom_encoder.h]. *)
Definition AOM_FRAME_IS_KEY : N := 1.

(** The [PSNR] struct of [encoder.rs]. *)
Record PSNR := mk_PSNR {
  samples : list N;
  psnr_vals : list N; (* the field [psnr]; that name is the union member's *)
  sse : list N;
  samples_hbd : list N;
  sse_hbd : list N;
  psnr_hbd : list N
}.

Definition invalid_kind_msg : string := "Invalid aom packet kind detected".

Module AOMPacket.
(** [enum AOMPacket]. *)
Inductive AOMPacket :=
| Frame (p : Packet.Packet)
| TwoPassStats (b : list Byte.byte)
| FirstPassMBStats (b : list Byte.byte)
| PSNR (p : PSNR)
| Raw (b : list Byte.byte).

(** [AOMPacket::new]: the [match] on [pkt.kind] compares against the five
    named constants in order, the last arm panics. *)
Definition new (mem : memory) (pkt : aom_codec_cx_pkt) : outcome AOMPacket :=
  let k := pkt.(kind) in
  if N.eqb k aom_codec_cx_pkt_kind_AOM_CODEC_CX_FRAME_PKT then
    let f := pkt.(pkt_data).(frame) in
    let p := Packet.with_capacity f.(FramePkt.sz) in
    let p := Packet.mk (copy_nonoverlapping mem f.(FramePkt.buf) (N.to_nat f.(FramePkt.sz)))
               p.(Packet.pos) p.(Packet.stream_index) p.(Packet.t)
               p.(Packet.is_key) p.(Packet.is_corrupted) in
    let p := Packet.mk p.(Packet.data) p.(Packet.pos) p.(Packet.stream_index)
               (TimeInfo.mk (Some f.(FramePkt.pts)) p.(Packet.t).(TimeInfo.dts)
                  p.(Packet.t).(TimeInfo.duration))
               p.(Packet.is_key) p.(Packet.is_corrupted) in
    let p := Packet.mk p.(Packet.data) p.(Packet.pos) p.(Packet.stream_index) p.(Packet.t)
               (negb (N.eqb (N.land f.(FramePkt.flags) AOM_FRAME_IS_KEY) 0))
               p.(Packet.is_corrupted) in
    Ret (Frame p)
  else if N.eqb k aom_codec_cx_pkt_kind_AOM_CODEC_STATS_PKT then
    Ret (TwoPassStats (to_buffer mem pkt.(pkt_data).(twopass_stats)))
  else if N.eqb k aom_codec_cx_pkt_kind_AOM_CODEC_CUSTOM_PKT then
    Ret (Raw (to_buffer mem pkt.(pkt_data).(raw)))
  else if N.eqb k aom_codec_cx_pkt_kind_AOM_CODEC_FPMB_STATS_PKT then
    Ret (FirstPassMBStats (to_buffer mem pkt.(pkt_data).(firstpass_mb_stats)))
  else if N.eqb k aom_codec_cx_pkt_kind_AOM_CODEC_PSNR_PKT then
    let p := pkt.(pkt_data).(psnr) in
    Ret (PSNR (mk_PSNR p.(pkt_samples) p.(pkt_psnr) p.(pkt_sse)
                 p.(pkt_samples_hbd) p.(pkt_sse_hbd) p.(pkt_psnr_hbd)))
  else Panic invalid_kind_msg.
End AOMPacket.

(** ** The encoder configuration record *)

(** [aom_rational]. *)
Record aom_rational := mk_rational {
  num : Z;
  den : Z
}.

(** [cfg_options_t]: a flat struct of unsigned fields, kept as the list of
    its field values (the crate only copies it whole). *)
Definition cfg_options_t := list N.

(** The fields of [aom_codec_enc_cfg], one constructor per field. *)
Inductive cfg_field :=
| F_g_usage
| F_g_threads
| F_g_profile
| F_g_w
| F_g_h
| F_g_limit
| F_g_forced_max_frame_width
| F_g_forced_max_frame_height
| F_g_bit_depth
| F_g_input_bit_depth
| F_g_timebase
| F_g_error_resilient
| F_g_pass
| F_g_lag_in_frames
| F_rc_dropframe_thresh
| F_rc_resize_mode
| F_rc_resize_denominator
| F_rc_resize_kf_denominator
| F_rc_superres_mode
| F_rc_superres_denominator
| F_rc_superres_kf_denominator
| F_rc_superres_qthresh
| F_rc_superres_kf_qthresh
| F_rc_end_usage
| F_rc_twopass_stats_in
| F_rc_firstpass_mb_stats_in
| F_rc_target_bitrate
| F_rc_min_quantizer
| F_rc_max_quantizer
| F_rc_undershoot_pct
| F_rc_overshoot_pct
| F_rc_buf_sz
| F_rc_buf_initial_sz
| F_rc_buf_optimal_sz
| F_rc_2pass_vbr_bias_pct
| F_rc_2pass_vbr_minsection_pct
| F_rc_2pass_vbr_maxsection_pct
| F_fwd_kf_enabled
| F_kf_mode
| F_kf_min_dist
| F_kf_max_dist
| F_sframe_dist
| F_sframe_mode
| F_large_scale_tile
| F_monochrome
| F_full_still_picture_hdr
| F_save_as_annexb
| F_tile_width_count
| F_tile_height_count
| F_tile_widths
| F_tile_heights
| F_use_fixed_qp_offsets
| F_fixed_qp_offsets
| F_encoder_cfg.

#[global] Instance cfg_field_eq_dec : EqDecision cfg_field.
Proof. solve_decision. Defined.

(** The Rust type of each field. *)
Definition field_ty (f : cfg_field) : Type :=
  match f with
  | F_g_usage => N
  | F_g_threads => N
  | F_g_profile => N
  | F_g_w => N
  | F_g_h => N
  | F_g_limit => N
  | F_g_forced_max_frame_width => N
  | F_g_forced_max_frame_height => N
  | F_g_bit_depth => N
  | F_g_input_bit_depth => N
  | F_g_timebase => aom_rational
  | F_g_error_resilient => N
  | F_g_pass => N
  | F_g_lag_in_frames => N
  | F_rc_dropframe_thresh => N
  | F_rc_resize_mode => N
  | F_rc_resize_denominator => N
  | F_rc_resize_kf_denominator => N
  | F_rc_superres_mode => N
  | F_rc_superres_denominator => N
  | F_rc_superres_kf_denominator => N
  | F_rc_superres_qthresh => N
  | F_rc_superres_kf_qthresh => N
  | F_rc_end_usage => N
  | F_rc_twopass_stats_in => aom_fixed_buf_t
  | F_rc_firstpass_mb_stats_in => aom_fixed_buf_t
  | F_rc_target_bitrate => N
  | F_rc_min_quantizer => N
  | F_rc_max_quantizer => N
  | F_rc_undershoot_pct => N
  | F_rc_overshoot_pct => N
  | F_rc_buf_sz => N
  | F_rc_buf_initial_sz => N
  | F_rc_buf_optimal_sz => N
  | F_rc_2pass_vbr_bias_pct => N
  | F_rc_2pass_vbr_minsection_pct => N
  | F_rc_2pass_vbr_maxsection_pct => N
  | F_fwd_kf_enabled => Z
  | F_kf_mode => N
  | F_kf_min_dist => N
  | F_kf_max_dist => N
  | F_sframe_dist => N
  | F_sframe_mode => N
  | F_large_scale_tile => N
  | F_monochrome => N
  | F_full_still_picture_hdr => N
  | F_save_as_annexb => N
  | F_tile_width_count => Z
  | F_tile_height_count => Z
  | F_tile_widths => list Z
  | F_tile_heights => list Z
  | F_use_fixed_qp_offsets => N
  | F_fixed_qp_offsets => list Z
  | F_encoder_cfg => cfg_options_t
  end.

(** [aom_codec_enc_cfg]: a C struct is a value for each of its fields, of
    that field's type. *)
Definition aom_codec_enc_cfg := forall f : cfg_field, field_ty f.

(** The struct field assignment [cfg.f = v]: field [f] now holds [v], every
    other field keeps its value. *)
Definition assign (f : cfg_field) (v : field_ty f) (cfg : aom_codec_enc_cfg)
  : aom_codec_enc_cfg :=
  fun g => match decide (f = g) with
           | left e => eq_rect f field_ty v g e
           | right _ => cfg g
           end.

(** [struct AV1EncoderConfig]. *)
Record AV1EncoderConfig := mk_AV1EncoderConfig {
  enc_cfg : aom_codec_enc_cfg
}.

(** The Rust objects a [&mut AV1EncoderConfig] can point to, by address. *)
Abbreviation cfg_heap := (gmap N AV1EncoderConfig).

(** [self.enc_cfg.f = value] through the reference [self]; a Rust reference
    always points to a live object, so the [None] case does not arise. *)
Definition store_field (self : N) (f : cfg_field) (value : field_ty f) (h : cfg_heap)
  : cfg_heap :=
  match h !! self with
  | Some c => <[self := mk_AV1EncoderConfig (assign f value c.(enc_cfg))]> h
  | None => h
  end.

(** The setters of [impl AomCodecEncCfgTrait for AV1EncoderConfig]: each
    takes [&mut self] and a value, assigns the field and returns [self]. *)
Definition g_usage (self : N) (value : N) (h : cfg_heap) : cfg_heap * N :=
  (store_field self F_g_usage value h, self).
Definition g_threads (self : N) (value : N) (h : cfg_heap) : cfg_heap * N :=
  (store_field self F_g_threads value h, self).
Definition g_profile (self : N) (value : N) (h : cfg_heap) : cfg_heap * N :=
  (store_field self F_g_profile value h, self).
Definition g_w (self : N) (value : N) (h : cfg_heap) : cfg_heap * N :=
  (store_field self F_g_w value h, self).
Definition g_h (self : N) (value : N) (h : cfg_heap) : cfg_heap * N :=
  (store_field self F_g_h value h, self).
Definition g_limit (self : N) (value : N) (h : cfg_heap) : cfg_heap * N :=
  (store_field self F_g_limit value h, self).
Definition g_forced_max_frame_width (self : N) (value : N) (h : cfg_heap) : cfg_heap * N :=
  (store_field self F_g_forced_max_frame_width value h, self).
Definition g_forced_max_frame_height (self : N) (value : N) (h : cfg_heap) : cfg_heap * N :=
  (store_field self F_g_forced_max_frame_height value h, self).
Definition g_bit_depth (self : N) (value : N) (h : cfg_heap) : cfg_heap * N :=
  (store_field self F_g_bit_depth value h, self).
Definition g_input_bit_depth (self : N) (value : N) (h : cfg_heap) : cfg_heap * N :=
  (store_field self F_g_input_bit_depth value h, self).
Definition g_timebase (self : N) (value : aom_rational) (h : cfg_heap) : cfg_heap * N :=
  (store_field self F_g_timebase value h, self).
Definition g_error_resilient (self : N) (value : N) (h : cfg_heap) : cfg_heap * N :=
  (store_field self F_g_error_resilient value h, self).
Definition g_pass (self : N) (value : N) (h : cfg_heap) : cfg_heap * N :=
  (store_field self F_g_pass value h, self).
Definition g_lag_in_frames (self : N) (value : N) (h : cfg_heap) : cfg_heap * N :=
  (store_field self F_g_lag_in_frames value h, self).
Definition rc_dropframe_thresh (self : N) (value : N) (h : cfg_heap) : cfg_heap * N :=
  (store_field self F_rc_dropframe_thresh value h, self).
Definition rc_resize_mode (self : N) (value : N) (h : cfg_heap) : cfg_heap * N :=
  (store_field self F_rc_resize_mode value h, self).
Definition rc_resize_denominator (self : N) (value : N) (h : cfg_heap) : cfg_heap * N :=
  (store_field self F_rc_resize_denominator value h, self).
Definition rc_resize_kf_denominator (self : N) (value : N) (h : cfg_heap) : cfg_heap * N :=
  (store_field self F_rc_resize_kf_denominator value h, self).
Definition rc_superres_mode (self : N) (value : N) (h : cfg_heap) : cfg_heap * N :=
  (store_field self F_rc_superres_mode value h, self).
Definition rc_superres_denominator (self : N) (value : N) (h : cfg_heap) : cfg_heap * N :=
  (store_field self F_rc_superres_denominator value h, self).
Definition rc_superres_kf_denominator (self : N) (value : N) (h : cfg_heap) : cfg_heap * N :=
  (store_field self F_rc_superres_kf_denominator value h, self).
Definition rc_superres_qthresh (self : N) (value : N) (h : cfg_heap) : cfg_heap * N :=
  (store_field self F_rc_superres_qthresh value h, self).
Definition rc_superres_kf_qthresh (self : N) (value : N) (h : cfg_heap) : cfg_heap * N :=
  (store_field self F_rc_superres_kf_qthresh value h, self).
Definition rc_end_usage (self : N) (value : N) (h : cfg_heap) : cfg_heap * N :=
  (store_field self F_rc_end_usage value h, self).
Definition rc_twopass_stats_in (self : N) (value : aom_fixed_buf_t) (h : cfg_heap) : cfg_heap * N :=
  (store_field self F_rc_twopass_stats_in value h, self).
Definition rc_firstpass_mb_stats_in (self : N) (value : aom_fixed_buf_t) (h : cfg_heap) : cfg_heap * N :=
  (store_field self F_rc_firstpass_mb_stats_in value h, self).
Definition rc_target_bitrate (self : N) (value : N) (h : cfg_heap) : cfg_heap * N :=
  (store_field self F_rc_target_bitrate value h, self).
Definition rc_min_quantizer (self : N) (value : N) (h : cfg_heap) : cfg_heap * N :=
  (store_field self F_rc_min_quantizer value h, self).
Definition rc_max_quantizer (self : N) (value : N) (h : cfg_heap) : cfg_heap * N :=
  (store_field self F_rc_max_quantizer value h, self).
Definition rc_undershoot_pct (self : N) (value : N) (h : cfg_heap) : cfg_heap * N :=
  (store_field self F_rc_undershoot_pct value h, self).
Definition rc_overshoot_pct (self : N) (value : N) (h : cfg_heap) : cfg_heap * N :=
  (store_field self F_rc_overshoot_pct value h, self).
Definition rc_buf_sz (self : N) (value : N) (h : cfg_heap) : cfg_heap * N :=
  (store_field self F_rc_buf_sz value h, self).
Definition rc_buf_initial_sz (self : N) (value : N) (h : cfg_heap) : cfg_heap * N :=
  (store_field self F_rc_buf_initial_sz value h, self).
Definition rc_buf_optimal_sz (self : N) (value : N) (h : cfg_heap) : cfg_heap * N :=
  (store_field self F_rc_buf_optimal_sz value h, self).
Definition rc_2pass_vbr_bias_pct (self : N) (value : N) (h : cfg_heap) : cfg_heap * N :=
  (store_field self F_rc_2pass_vbr_bias_pct value h, self).
Definition rc_2pass_vbr_minsection_pct (self : N) (value : N) (h : cfg_heap) : cfg_heap * N :=
  (store_field self F_rc_2pass_vbr_minsection_pct value h, self).
Definition rc_2pass_vbr_maxsection_pct (self : N) (value : N) (h : cfg_heap) : cfg_heap * N :=
  (store_field self F_rc_2pass_vbr_maxsection_pct value h, self).
Definition fwd_kf_enabled (self : N) (value : Z) (h : cfg_heap) : cfg_heap * N :=
  (store_field self F_fwd_kf_enabled value h, self).
Definition kf_mode (self : N) (value : N) (h : cfg_heap) : cfg_heap * N :=
  (store_field self F_kf_mode value h, self).
Definition kf_min_dist (self : N) (value : N) (h : cfg_heap) : cfg_heap * N :=
  (store_field self F_kf_min_dist value h, self).
Definition kf_max_dist (self : N) (value : N) (h : cfg_heap) : cfg_heap * N :=
  (store_field self F_kf_max_dist value h, self).
Definition sframe_dist (self : N) (value : N) (h : cfg_heap) : cfg_heap * N :=
  (store_field self F_sframe_dist value h, self).
Definition sframe_mode (self : N) (value : N) (h : cfg_heap) : cfg_heap * N :=
  (store_field self F_sframe_mode value h, self).
Definition large_scale_tile (self : N) (value : N) (h : cfg_heap) : cfg_heap * N :=
  (store_field self F_large_scale_tile value h, self).
Definition monochrome (self : N) (value : N) (h : cfg_heap) : cfg_heap * N :=
  (store_field self F_monochrome value h, self).
Definition full_still_picture_hdr (self : N) (value : N) (h : cfg_heap) : cfg_heap * N :=
  (store_field self F_full_still_picture_hdr value h, self).
Definition save_as_annexb (self : N) (value : N) (h : cfg_heap) : cfg_heap * N :=
  (store_field self F_save_as_annexb value h, self).
Definition tile_width_count (self : N) (value : Z) (h : cfg_heap) : cfg_heap * N :=
  (store_field self F_tile_width_count value h, self).
Definition tile_height_count (self : N) (value : Z) (h : cfg_heap) : cfg_heap * N :=
  (store_field self F_tile_height_count value h, self).
Definition tile_widths (self : N) (value : list Z) (h : cfg_heap) : cfg_heap * N :=
  (store_field self F_tile_widths value h, self).
Definition tile_heights (self : N) (value : list Z) (h : cfg_heap) : cfg_heap * N :=
  (store_field self F_tile_heights value h, self).
Definition use_fixed_qp_offsets (self : N) (value : N) (h : cfg_heap) : cfg_heap * N :=
  (store_field self F_use_fixed_qp_offsets value h, self).
Definition fixed_qp_offsets (self : N) (value : list Z) (h : cfg_heap) : cfg_heap * N :=
  (store_field self F_fixed_qp_offsets value h, self).
Definition encoder_cfg (self : N) (value : cfg_options_t) (h : cfg_heap) : cfg_heap * N :=
  (store_field self F_encoder_cfg value h, self).

(** The method table of the trait: the setter the trait names after each
    field. *)
Definition setter (f : cfg_field) : field_ty f -> N -> cfg_heap -> cfg_heap * N :=
  match f with
  | F_g_usage => fun v self => g_usage self v
  | F_g_threads => fun v self => g_threads self v
  | F_g_profile => fun v self => g_profile self v
  | F_g_w => fun v self => g_w self v
  | F_g_h => fun v self => g_h self v
  | F_g_limit => fun v self => g_limit self v
  | F_g_forced_max_frame_width => fun v self => g_forced_max_frame_width self v
  | F_g_forced_max_frame_height => fun v self => g_forced_max_frame_height self v
  | F_g_bit_depth => fun v self => g_bit_depth self v
  | F_g_input_bit_depth => fun v self => g_input_bit_depth self v
  | F_g_timebase => fun v self => g_timebase self v
  | F_g_error_resilient => fun v self => g_error_resilient self v
  | F_g_pass => fun v self => g_pass self v
  | F_g_lag_in_frames => fun v self => g_lag_in_frames self v
  | F_rc_dropframe_thresh => fun v self => rc_dropframe_thresh self v
  | F_rc_resize_mode => fun v self => rc_resize_mode self v
  | F_rc_resize_denominator => fun v self => rc_resize_denominator self v
  | F_rc_resize_kf_denominator => fun v self => rc_resize_kf_denominator self v
  | F_rc_superres_mode => fun v self => rc_superres_mode self v
  | F_rc_superres_denominator => fun v self => rc_superres_denominator self v
  | F_rc_superres_kf_denominator => fun v self => rc_superres_kf_denominator self v
  | F_rc_superres_qthresh => fun v self => rc_superres_qthresh self v
  | F_rc_superres_kf_qthresh => fun v self => rc_superres_kf_qthresh self v
  | F_rc_end_usage => fun v self => rc_end_usage self v
  | F_rc_twopass_stats_in => fun v self => rc_twopass_stats_in self v
  | F_rc_firstpass_mb_stats_in => fun v self => rc_firstpass_mb_stats_in self v
  | F_rc_target_bitrate => fun v self => rc_target_bitrate self v
  | F_rc_min_quantizer => fun v self => rc_min_quantizer self v
  | F_rc_max_quantizer => fun v self => rc_max_quantizer self v
  | F_rc_undershoot_pct => fun v self => rc_undershoot_pct self v
  | F_rc_overshoot_pct => fun v self => rc_overshoot_pct self v
  | F_rc_buf_sz => fun v self => rc_buf_sz self v
  | F_rc_buf_initial_sz => fun v self => rc_buf_initial_sz self v
  | F_rc_buf_optimal_sz => fun v self => rc_buf_optimal_sz self v
  | F_rc_2pass_vbr_bias_pct => fun v self => rc_2pass_vbr_bias_pct self v
  | F_rc_2pass_vbr_minsection_pct => fun v self => rc_2pass_vbr_minsection_pct self v
  | F_rc_2pass_vbr_maxsection_pct => fun v self => rc_2pass_vbr_maxsection_pct self v
  | F_fwd_kf_enabled => fun v self => fwd_kf_enabled self v
  | F_kf_mode => fun v self => kf_mode self v
  | F_kf_min_dist => fun v self => kf_min_dist self v
  | F_kf_max_dist => fun v self => kf_max_dist self v
  | F_sframe_dist => fun v self => sframe_dist self v
  | F_sframe_mode => fun v self => sframe_mode self v
  | F_large_scale_tile => fun v self => large_scale_tile self v
  | F_monochrome => fun v self => monochrome self v
  | F_full_still_picture_hdr => fun v self => full_still_picture_hdr self v
  | F_save_as_annexb => fun v self => save_as_annexb self v
  | F_tile_width_count => fun v self => tile_width_count self v
  | F_tile_height_count => fun v self => tile_height_count self v
  | F_tile_widths => fun v self => tile_widths self v
  | F_tile_heights => fun v self => tile_heights self v
  | F_use_fixed_qp_offsets => fun v self => use_fixed_qp_offsets self v
  | F_fixed_qp_offsets => fun v self => fixed_qp_offsets self v
  | F_encoder_cfg => fun v self => encoder_cfg self v
  end.

(** ** Frames and images *)

(** [av_data::pixel::Chromaton]. *)
Record Chromaton := mk_chromaton {
  h_ss : N;
  v_ss : N;
  packed : bool;
  depth : N;
  shift : N;
  comp_offs : N;
  next_elem : N
}.

(** [av_data::pixel::Formaton]; the enumerations ([model], [primaries],
    [xfer], [matrix], [chroma_location]) are kept as their discriminants. *)
Record Formaton := mk_formaton {
  model : N;
  primaries : N;
  xfer : N;
  matrix : N;
  chroma_location : N;
  components : list (option Chromaton);
  elem_size : N;
  be : bool;
  alpha : bool;
  palette : bool
}.

#[global] Instance Chromaton_eq_dec : EqDecision Chromaton.
Proof. solve_decision. Defined.
#[global] Instance Formaton_eq_dec : EqDecision Formaton.
Proof. solve_decision. Defined.

(** [Chromaton::yuv8]. *)
Definition yuv8 (h_ss v_ss comp_offs : N) : Chromaton :=
  mk_chromaton h_ss v_ss false 8 0 comp_offs 1.

(** The [model] discriminant of [Trichromatic(YUV(YCbCr))] and the
    [Unspecified] discriminants of the colour enumerations. *)
Definition model_YCbCr : N := 0.
Definition unspecified : N := 2.
Definition chroma_location_unspecified : N := 0.

(** [av_data::pixel::formats::YUV420] and [YUV444]. *)
Definition YUV420 : Formaton :=
  mk_formaton model_YCbCr unspecified unspecified unspecified chroma_location_unspecified
    [Some (yuv8 0 0 0); Some (yuv8 1 1 1); Some (yuv8 1 1 2); None; None] 0 false false false.
Definition YUV444 : Formaton :=
  mk_formaton model_YCbCr unspecified unspecified unspecified chroma_location_unspecified
    [Some (yuv8 0 0 0); Some (yuv8 0 0 1); Some (yuv8 0 0 2); None; None] 0 false false false.

(** [av_data::frame::VideoInfo]. *)
Record VideoInfo := mk_video_info {
  pic_type : N;
  width : N;
  height : N;
  format : Formaton
}.

(** [av_data::audiosample::AudioInfo] (never read by the crate). *)
Record AudioInfo := mk_audio_info {
  audio_samples : N;
  sample_rate : N
}.

(** [av_data::frame::MediaKind]. *)
Inductive MediaKind :=
| Video (v : VideoInfo)
| Audio (a : AudioInfo).

(** One plane of a frame buffer: the address and length of its byte slice
    and its line size. *)
Record Plane := mk_plane {
  plane_ptr : N;
  plane_len : N;
  plane_linesize : N
}.

(** [frame.buf]: the planes of the frame buffer, with the three methods
    [img_from_frame] calls. *)
Abbreviation FrameBuffer := (list Plane).
Definition count (b : FrameBuffer) : nat := length b.
Definition as_slice (b : FrameBuffer) (i : nat) : option Plane := b !! i.
Definition linesize (b : FrameBuffer) (i : nat) : option N :=
  plane_linesize <$> b !! i.

(** [av_data::frame::Frame]. *)
Module Frame.
Record Frame := mk {
  kind : MediaKind;
  buf : FrameBuffer;
  t : TimeInfo.TimeInfo
}.
End Frame.

(** [aom_image] (the fields the crate writes; the other fields are zero). *)
Record aom_image := mk_image {
  fmt : N;
  cp : N;
  tc : N;
  mc : N;
  w : N;
  h : N;
  bit_depth : N;
  d_w : N;
  d_h : N;
  x_chroma_shift : N;
  y_chroma_shift : N;
  planes : list N;
  stride : list Z;
  bps : Z
}.

(** [mem::zeroed()]: null plane pointers, zero strides. *)
Definition zeroed_image : aom_image :=
  mk_image 0 0 0 0 0 0 0 0 0 0 0 [0; 0; 0] [0%Z; 0%Z; 0%Z] 0%Z.

(** The assignments [img.f = v]. *)
Definition set_fmt (img : aom_image) (v : N) : aom_image :=
  mk_image v img.(cp) img.(tc) img.(mc) img.(w) img.(h) img.(bit_depth) img.(d_w) img.(d_h) img.(x_chroma_shift) img.(y_chroma_shift) img.(planes) img.(stride) img.(bps).
Definition set_cp (img : aom_image) (v : N) : aom_image :=
  mk_image img.(fmt) v img.(tc) img.(mc) img.(w) img.(h) img.(bit_depth) img.(d_w) img.(d_h) img.(x_chroma_shift) img.(y_chroma_shift) img.(planes) img.(stride) img.(bps).
Definition set_tc (img : aom_image) (v : N) : aom_image :=
  mk_image img.(fmt) img.(cp) v img.(mc) img.(w) img.(h) img.(bit_depth) img.(d_w) img.(d_h) img.(x_chroma_shift) img.(y_chroma_shift) img.(planes) img.(stride) img.(bps).
Definition set_mc (img : aom_image) (v : N) : aom_image :=
  mk_image img.(fmt) img.(cp) img.(tc) v img.(w) img.(h) img.(bit_depth) img.(d_w) img.(d_h) img.(x_chroma_shift) img.(y_chroma_shift) img.(planes) img.(stride) img.(bps).
Definition set_w (img : aom_image) (v : N) : aom_image :=
  mk_image img.(fmt) img.(cp) img.(tc) img.(mc) v img.(h) img.(bit_depth) img.(d_w) img.(d_h) img.(x_chroma_shift) img.(y_chroma_shift) img.(planes) img.(stride) img.(bps).
Definition set_h (img : aom_image) (v : N) : aom_image :=
  mk_image img.(fmt) img.(cp) img.(tc) img.(mc) img.(w) v img.(bit_depth) img.(d_w) img.(d_h) img.(x_chroma_shift) img.(y_chroma_shift) img.(planes) img.(stride) img.(bps).
Definition set_bit_depth (img : aom_image) (v : N) : aom_image :=
  mk_image img.(fmt) img.(cp) img.(tc) img.(mc) img.(w) img.(h) v img.(d_w) img.(d_h) img.(x_chroma_shift) img.(y_chroma_shift) img.(planes) img.(stride) img.(bps).
Definition set_d_w (img : aom_image) (v : N) : aom_image :=
  mk_image img.(fmt) img.(cp) img.(tc) img.(mc) img.(w) img.(h) img.(bit_depth) v img.(d_h) img.(x_chroma_shift) img.(y_chroma_shift) img.(planes) img.(stride) img.(bps).
Definition set_d_h (img : aom_image) (v : N) : aom_image :=
  mk_image img.(fmt) img.(cp) img.(tc) img.(mc) img.(w) img.(h) img.(bit_depth) img.(d_w) v img.(x_chroma_shift) img.(y_chroma_shift) img.(planes) img.(stride) img.(bps).
Definition set_x_chroma_shift (img : aom_image) (v : N) : aom_image :=
  mk_image img.(fmt) img.(cp) img.(tc) img.(mc) img.(w) img.(h) img.(bit_depth) img.(d_w) img.(d_h) v img.(y_chroma_shift) img.(planes) img.(stride) img.(bps).
Definition set_y_chroma_shift (img : aom_image) (v : N) : aom_image :=
  mk_image img.(fmt) img.(cp) img.(tc) img.(mc) img.(w) img.(h) img.(bit_depth) img.(d_w) img.(d_h) img.(x_chroma_shift) v img.(planes) img.(stride) img.(bps).
Definition set_planes (img : aom_image) (v : list N) : aom_image :=
  mk_image img.(fmt) img.(cp) img.(tc) img.(mc) img.(w) img.(h) img.(bit_depth) img.(d_w) img.(d_h) img.(x_chroma_shift) img.(y_chroma_shift) v img.(stride) img.(bps).
Definition set_stride (img : aom_image) (v : list Z) : aom_image :=
  mk_image img.(fmt) img.(cp) img.(tc) img.(mc) img.(w) img.(h) img.(bit_depth) img.(d_w) img.(d_h) img.(x_chroma_shift) img.(y_chroma_shift) img.(planes) v img.(bps).
Definition set_bps (img : aom_image) (v : Z) : aom_image :=
  mk_image img.(fmt) img.(cp) img.(tc) img.(mc) img.(w) img.(h) img.(bit_depth) img.(d_w) img.(d_h) img.(x_chroma_shift) img.(y_chroma_shift) img.(planes) img.(stride) v.

(** [aom_img_fmt_AOM_IMG_FMT_I420] = [AOM_IMG_FMT_PLANAR | 2]. *)
Definition aom_img_fmt_AOM_IMG_FMT_I420 : N := 258.

Definition unimplemented_msg : string := "not implemented".
Definition index_oob_msg : string := "index out of bounds".
Definition result_unwrap_msg : string := "called `Result::unwrap()` on an `Err` value".

(** [arr[i] = v] on a Rust array: out of range it panics. *)
Definition array_set {A} (arr : list A) (i : nat) (v : A) : outcome (list A) :=
  if Nat.ltb i (length arr) then Ret (<[i := v]> arr) else Panic index_oob_msg.

(** [x as u32] on a [usize]. *)
Definition as_u32 (x : N) : N := x mod 2 ^ 32.

(** [x as i32] on a [usize]: the low 32 bits, read as two's complement. *)
Definition as_i32 (x : N) : Z :=
  let m := Z.of_N (x mod 2 ^ 32) in
  if (m <? 2 ^ 31)%Z then m else (m - 2 ^ 32)%Z.

(** [map_fmt_to_img] (the non-Windows version). *)
Definition map_fmt_to_img (img : aom_image) (fmt : Formaton) : aom_image :=
  let img := set_cp img fmt.(primaries) in
  let img := set_tc img fmt.(xfer) in
  set_mc img fmt.(matrix).

(** [map_formaton]. *)
Definition map_formaton (img : aom_image) (fmt : Formaton) : outcome aom_image :=
  let* img := (if decide (fmt = YUV420)
               then Ret (set_fmt img aom_img_fmt_AOM_IMG_FMT_I420)
               else Panic unimplemented_msg) in
  let img := set_bit_depth img 8 in
  let img := set_bps img 12%Z in
  let img := set_x_chroma_shift img 1 in
  let img := set_y_chroma_shift img 1 in
  Ret (map_fmt_to_img img fmt).

(** One iteration of [for i in 0..frame.buf.count()]. *)
Definition plane_step (b : FrameBuffer) (img : aom_image) (i : nat) : outcome aom_image :=
  let* s := (match as_slice b i with Some s => Ret s | None => Panic result_unwrap_msg end) in
  let* planes := array_set img.(planes) i s.(plane_ptr) in
  let img := set_planes img planes in
  let* ls := (match linesize b i with Some l => Ret l | None => Panic result_unwrap_msg end) in
  let* stride := array_set img.(stride) i (as_i32 ls) in
  Ret (set_stride img stride).

Fixpoint for_planes (b : FrameBuffer) (img : aom_image) (is : list nat) : outcome aom_image :=
  match is with
  | [] => Ret img
  | i :: is' => let* img := plane_step b img i in for_planes b img is'
  end.

(** [utils::img_from_frame]. *)
Definition img_from_frame (frame : Frame.Frame) : outcome aom_image :=
  let img := zeroed_image in
  let* img := (match frame.(Frame.kind) with
               | Video v =>
                   let* img := map_formaton img v.(format) in
                   let img := set_w img (as_u32 v.(width)) in
                   let img := set_h img (as_u32 v.(height)) in
                   let img := set_d_w img (as_u32 v.(width)) in
                   Ret (set_d_h img (as_u32 v.(height)))
               | Audio _ => Ret img
               end) in
  for_planes frame.(Frame.buf) img (seq 0 (count frame.(Frame.buf))).

(** ** Calls into libaom *)

(** [aom_codec_err_t_AOM_CODEC_OK]. *)
Definition aom_codec_err_t_AOM_CODEC_OK : N := 0.

(** [aome_enc_control_id_AOME_SET_CPUUSED]. *)
Definition aome_enc_control_id_AOME_SET_CPUUSED : N := 13.

(** A call into libaom, with the arguments that reach the library. *)
Inductive native_call :=
| CallEncConfigDefault (usage : N)
| CallEncInit (cfg : aom_codec_enc_cfg)
| CallControl (ctx : N) (id : Z) (val : Z)
| CallEncode (ctx : N) (img : option aom_image) (pts : Z) (duration : N) (flags : Z)
| CallGetCxData (ctx : N) (iter : N)
| CallDestroy (ctx : N).

Abbreviation trace := (list native_call).

(** The behaviour of libaom, as a function of the calls made so far: the
    return code of a call, the out-parameters it writes ([aom_codec_enc_cfg]
    of [aom_codec_enc_config_default], the context of
    [aom_codec_enc_init_ver], the packet pointer and next iterator of
    [aom_codec_get_cx_data]) and the memory that packets point into. *)
Record libaom := mk_libaom {
  ret_code : trace -> native_call -> N;
  written_cfg : trace -> aom_codec_enc_cfg;
  written_ctx : trace -> N;
  cx_data : trace -> N -> N -> option aom_codec_cx_pkt * N;
  native_mem : trace -> memory
}.

(** The crate's computations: they call libaom (appending to the trace) and
    may panic; a panic keeps the calls made before it. *)
Definition M (A : Type) : Type := trace -> outcome A * trace.

Definition mret {A} (a : A) : M A := fun tr => (Ret a, tr).

Definition mbind {A B} (m : M A) (k : A -> M B) : M B :=
  fun tr => match m tr with
            | (Ret a, tr') => k a tr'
            | (Panic s, tr') => (Panic s, tr')
            end.

Definition lift {A} (o : outcome A) : M A := fun tr => (o, tr).

Notation "'let!' x := m 'in' k" := (mbind m (fun x => k))
  (at level 200, x name, m at level 100, k at level 200).

(** [struct AV1Encoder]: the context handle and the packet iterator. *)
Record AV1Encoder := mk_AV1Encoder {
  ctx : N;
  iter : N
}.

Section Native.

Variable L : libaom.

(** A call: its return code, and the call recorded. *)
Definition call (c : native_call) : M N :=
  fun tr => (Ret (L.(ret_code) tr c), tr ++ [c]).

(** Reading an out-parameter the last call wrote. *)
Definition read_cfg : M aom_codec_enc_cfg := fun tr => (Ret (L.(written_cfg) tr), tr).
Definition read_ctx : M N := fun tr => (Ret (L.(written_ctx) tr), tr).
Definition read_mem : M memory := fun tr => (Ret (L.(native_mem) tr), tr).

(** [aom_codec_get_cx_data(&mut self.ctx, &mut self.iter)]. *)
Definition get_cx_data (c iter : N) : M (option aom_codec_cx_pkt * N) :=
  fun tr => (Ret (L.(cx_data) tr c iter), tr ++ [CallGetCxData c iter]).

Definition failed_init_msg (code : N) : string :=
  "Failed to initialize encoder: error code " +:+ pretty code.

(** [AV1EncoderConfig::init]; [config.rs] imports
    [aom_codec_err_t_AOM_CODEC_OK], so its first arm compares with it. *)
Definition init (config : N) : M (result AV1EncoderConfig string) :=
  let! is_success := call (CallEncConfigDefault config) in
  if N.eqb is_success aom_codec_err_t_AOM_CODEC_OK then
    let! cfg := read_cfg in
    mret (Ok (mk_AV1EncoderConfig cfg))
  else mret (Err (failed_init_msg is_success)).

(** [Drop for AV1Encoder]: [aom_codec_destroy(&mut self.ctx)], its return
    code ignored. *)
Definition drop (self : AV1Encoder) : M unit :=
  let! _ := call (CallDestroy self.(ctx)) in
  mret tt.

(** Unwinding out of a scope that owns [enc]: a panic in [m] drops [enc]
    before it propagates. *)
Definition unwinding {A} (enc : AV1Encoder) (m : M A) : M A :=
  fun tr => match m tr with
            | (Panic s, tr') => (Panic s, snd (drop enc tr'))
            | r => r
            end.

(** [AV1Encoder::aom_codec_control].  [encoder.rs] does not import
    [aom_codec_err_t_AOM_CODEC_OK], so the first arm of its [match] is a
    fresh binding of that name and matches every code; the arm
    [_ => Err(result)] is unreachable, and Rocq rejects such a redundant
    arm, so the [match] below keeps the first arm only. *)
Definition aom_codec_control (self : AV1Encoder) (id : N) (val : Z)
  : M (result unit N * AV1Encoder) :=
  let! result := call (CallControl self.(ctx) (as_i32 id) val) in
  mret (match result with
        | aom_codec_err_t_AOM_CODEC_OK => Ok tt
        end, self).

(** [AV1Encoder::aom_codec_encode] (same [match] as above). *)
Definition aom_codec_encode (self : AV1Encoder) (frame : Frame.Frame)
  : M (result unit N * AV1Encoder) :=
  let! img := lift (img_from_frame frame) in
  let! pts := lift (unwrap frame.(Frame.t).(TimeInfo.pts)) in
  let! ret := call (CallEncode self.(ctx) (Some img) pts 1 0) in
  let self := mk_AV1Encoder self.(ctx) 0 in
  mret (match ret with
        | aom_codec_err_t_AOM_CODEC_OK => Ok tt
        end, self).

(** [AV1Encoder::flush] (same [match] as above). *)
Definition flush (self : AV1Encoder) : M (result unit N * AV1Encoder) :=
  let! ret := call (CallEncode self.(ctx) None 0 1 0) in
  let self := mk_AV1Encoder self.(ctx) 0 in
  mret (match ret with
        | aom_codec_err_t_AOM_CODEC_OK => Ok tt
        end, self).

(** [AV1Encoder::get_packet]. *)
Definition get_packet (self : AV1Encoder) : M (option AOMPacket.AOMPacket * AV1Encoder) :=
  let! r := get_cx_data self.(ctx) self.(iter) in
  let self := mk_AV1Encoder self.(ctx) (snd r) in
  match fst r with
  | None => mret (None, self)
  | Some pkt =>
      let! mem := read_mem in
      let! p := lift (AOMPacket.new mem pkt) in
      mret (Some p, self)
  end.

Definition cpuused_msg : string := "Cannot set CPUUSED".

(** [AV1Encoder::new]; the [.expect] on the CPUUSED control panics on
    [Err], and the unwinding drops [enc]. *)
Definition new (cfg : AV1EncoderConfig) : M (result AV1Encoder N) :=
  let! result := call (CallEncInit cfg.(enc_cfg)) in
  if N.eqb result 0 then
    let! c := read_ctx in
    let enc := mk_AV1Encoder c 0 in
    let! r := unwinding enc (aom_codec_control enc aome_enc_control_id_AOME_SET_CPUUSED 2) in
    let enc := snd r in
    match fst r with
    | Ok _ => mret (Ok enc)
    | Err _ => unwinding enc (lift (Panic cpuused_msg))
    end
  else mret (Err result).

(** The methods a caller can apply to a live encoder. *)
Inductive enc_op :=
| OpControl (id : N) (val : Z)
| OpEncode (frame : Frame.Frame)
| OpFlush
| OpGetPacket.

Definition run_op (enc : AV1Encoder) (op : enc_op) : M AV1Encoder :=
  match op with
  | OpControl id val => let! r := aom_codec_control enc id val in mret (snd r)
  | OpEncode f => let! r := aom_codec_encode enc f in mret (snd r)
  | OpFlush => let! r := flush enc in mret (snd r)
  | OpGetPacket => let! r := get_packet enc in mret (snd r)
  end.

Fixpoint run_ops (enc : AV1Encoder) (ops : list enc_op) : M AV1Encoder :=
  match ops with
  | [] => mret enc
  | op :: ops' => let! enc := run_op enc op in run_ops enc ops'
  end.

(** A scope owning an encoder: [let mut enc = AV1Encoder::new(&mut cfg)?;]
    then the calls [ops] on it, each result ignored or passed on by the
    caller; [enc] is dropped at the end of the scope, or by the unwinding of
    a panic (drop reads only [ctx], which no method changes). *)
Definition with_encoder (cfg : AV1EncoderConfig) (ops : list enc_op) : M (result unit N) :=
  let! r := new cfg in
  match r with
  | Err e => mret (Err e)
  | Ok enc =>
      let! enc' := unwinding enc (run_ops enc ops) in
      let! _ := drop enc' in
      mret (Ok tt)
  end.

End Native.

(** ** Properties *)

(** [bytes] is an exact copy of the [n] bytes of [mem] at [src]. *)
Definition copies (mem : memory) (src n : N) (bytes : list Byte.byte) : Prop :=
  length bytes = N.to_nat n /\
  forall i : nat, (i < N.to_nat n)%nat -> nth_error bytes i = Some (mem (src + N.of_nat i)).

(** The five packet kinds [AOMPacket::new] names. *)
Definition known_kind (k : N) : bool :=
  N.eqb k aom_codec_cx_pkt_kind_AOM_CODEC_CX_FRAME_PKT
  || N.eqb k aom_codec_cx_pkt_kind_AOM_CODEC_STATS_PKT
  || N.eqb k aom_codec_cx_pkt_kind_AOM_CODEC_FPMB_STATS_PKT
  || N.eqb k aom_codec_cx_pkt_kind_AOM_CODEC_PSNR_PKT
  || N.eqb k aom_codec_cx_pkt_kind_AOM_CODEC_CUSTOM_PKT.

(** The native buffer [AOMPacket::new] copies from for a packet: the
    member of the union its kind selects ([(0, 0)], nothing, for PSNR and
    unknown kinds). *)
Definition read_range (pkt : aom_codec_cx_pkt) : N * N :=
  let k := pkt.(kind) in
  let d := pkt.(pkt_data) in
  if N.eqb k aom_codec_cx_pkt_kind_AOM_CODEC_CX_FRAME_PKT then
    (d.(frame).(FramePkt.buf), d.(frame).(FramePkt.sz))
  else if N.eqb k aom_codec_cx_pkt_kind_AOM_CODEC_STATS_PKT then
    (d.(twopass_stats).(buf), d.(twopass_stats).(sz))
  else if N.eqb k aom_codec_cx_pkt_kind_AOM_CODEC_CUSTOM_PKT then
    (d.(raw).(buf), d.(raw).(sz))
  else if N.eqb k aom_codec_cx_pkt_kind_AOM_CODEC_FPMB_STATS_PKT then
    (d.(firstpass_mb_stats).(buf), d.(firstpass_mb_stats).(sz))
  else (0, 0).

(** A call that is not [aom_codec_destroy]. *)
Definition not_destroy (c : native_call) : Prop :=
  match c with
  | CallDestroy _ => False
  | _ => True
  end.

(** [m] only appends calls other than [aom_codec_destroy] to the trace,
    whether it returns or panics. *)
Definition no_destroy_calls {A} (m : M A) : Prop :=
  forall tr, exists mid, snd (m tr) = tr ++ mid /\ Forall not_destroy mid.

(** ** Sample inputs *)

(** A memory where byte [a] holds [a mod 256]. *)
Definition sample_mem : memory := fun a => match Byte.of_N (a mod 256) with
                                           | Some b => b
                                           | None => Byte.x00
                                           end.

Definition sample_frame_pkt : FramePkt.aom_codec_cx_pkt_frame :=
  FramePkt.mk 16 4 7%Z 1 1 0%Z 4.

Definition sample_psnr_pkt : aom_psnr_pkt :=
  mk_psnr_pkt [1; 2; 3; 4] [5; 6; 7; 8] [9; 10; 11; 12] [1; 1; 1; 1] [2; 2; 2; 2] [3; 3; 3; 3].

Definition sample_pkt (k : N) : aom_codec_cx_pkt :=
  mk_pkt k (mk_pkt_data sample_frame_pkt (mk_fixed_buf 32 3) (mk_fixed_buf 40 2)
              sample_psnr_pkt (mk_fixed_buf 48 1)).

(** A zero-filled configuration record, as [mem::zeroed] would give. *)
Definition zeroed_cfg : aom_codec_enc_cfg.
Proof.
  intros f; destruct f; simpl;
    first [exact 0%N | exact 0%Z | exact (mk_rational 0 0) | exact (mk_fixed_buf 0 0) | exact []].
Defined.

(** A libaom that answers every call with [code], hands out the context [5],
    and one frame packet of kind [k] per [aom_codec_get_cx_data]. *)
Definition const_libaom (code k : N) : libaom :=
  mk_libaom (fun _ _ => code) (fun _ => zeroed_cfg) (fun _ => 5)
    (fun _ _ it => (Some (sample_pkt k), it + 1)) (fun _ => sample_mem).

(** A libaom whose init succeeds and whose every other call fails. *)
Definition failing_control_libaom : libaom :=
  mk_libaom (fun _ c => match c with CallEncInit _ => 0 | _ => 1 end)
    (fun _ => zeroed_cfg) (fun _ => 5) (fun _ _ it => (None, it)) (fun _ => sample_mem).

Definition sample_planes : FrameBuffer :=
  [mk_plane 1000 64 8; mk_plane 2000 16 4; mk_plane 3000 16 4].

Definition four_plane_frame : Frame.Frame :=
  Frame.mk (Video (mk_video_info 0 8 8 YUV420)) (sample_planes ++ [mk_plane 4000 64 8])
    (TimeInfo.mk None None None).

Definition sample_video (fmt : Formaton) (pts : option Z) : Frame.Frame :=
  Frame.mk (Video (mk_video_info 0 8 8 fmt)) sample_planes (TimeInfo.mk pts None None).

Example to_buffer_sample :
  to_buffer sample_mem (mk_fixed_buf 65 3) = [Byte.x41; Byte.x42; Byte.x43].
Proof. reflexivity. Qed.

Example new_stats_sample :
  AOMPacket.new sample_mem (sample_pkt 1) = Ret (AOMPacket.TwoPassStats [Byte.x20; Byte.x21; Byte.x22]).
Proof. vm_compute. reflexivity. Qed.

Example new_unknown_sample :
  AOMPacket.new sample_mem (sample_pkt 4) = Panic invalid_kind_msg.
Proof. reflexivity. Qed.

Example img_sample :
  obind (img_from_frame (sample_video YUV420 (Some 3%Z))) (fun i => Ret (i.(planes), i.(stride), i.(fmt)))
  = Ret ([1000; 2000; 3000], [8%Z; 4%Z; 4%Z], 258).
Proof. vm_compute. reflexivity. Qed.

Example init_err_sample :
  fst (init (const_libaom 1 0) 0 []) = Ret (Err "Failed to initialize encoder: error code 1").
Proof. vm_compute. reflexivity. Qed.

Example flush_err_sample :
  fst (flush (const_libaom 1 0) (mk_AV1Encoder 5 0) []) = Ret (Ok tt, mk_AV1Encoder 5 0).
Proof. reflexivity. Qed.

(** ** Buffers and packets *)

Lemma copy_nonoverlapping_length (mem : memory) (src : N) (n : nat) :
  length (copy_nonoverlapping mem src n) = n.
Proof.
  revert src; induction n as [|n IH]; intros src; simpl; [done | by rewrite IH].
Qed.

Lemma copy_nonoverlapping_nth (mem : memory) (src : N) (n i : nat) :
  (i < n)%nat ->
  nth_error (copy_nonoverlapping mem src n) i = Some (mem (src + N.of_nat i)).
Proof.
  revert src i; induction n as [|n IH]; intros src i Hi; [lia|].
  destruct i as [|i]; simpl.
  - by rewrite N.add_0_r.
  - rewrite IH by lia. f_equal. f_equal. lia.
Qed.

Lemma copy_nonoverlapping_copies (mem : memory) (src n : N) :
  copies mem src n (copy_nonoverlapping mem src (N.to_nat n)).
Proof.
  split; [apply copy_nonoverlapping_length|].
  intros i Hi. by apply copy_nonoverlapping_nth.
Qed.

(** C3: [to_buffer] returns exactly the [sz] bytes of the native buffer, in
    order: its length is [sz] and its [i]-th byte is the byte at [buf + i]
    for every [i < sz]. *)
Theorem to_buffer_copies_buffer (mem : memory) (b : aom_fixed_buf_t) :
  length (to_buffer mem b) = N.to_nat b.(sz) /\
  forall i : nat, (i < N.to_nat b.(sz))%nat ->
    nth_error (to_buffer mem b) i = Some (mem (b.(buf) + N.of_nat i)).
Proof. apply copy_nonoverlapping_copies. Qed.

Lemma to_buffer_copies (mem : memory) (b : aom_fixed_buf_t) :
  copies mem b.(buf) b.(sz) (to_buffer mem b).
Proof. apply copy_nonoverlapping_copies. Qed.

(** C1: for each of the five known kinds, [AOMPacket::new] returns the
    variant of that kind, whose bytes are an exact copy of the payload
    buffer the union member describes (for PSNR: the six arrays, unchanged). *)
Theorem AOMPacket_new_known_kinds (mem : memory) (pkt : aom_codec_cx_pkt) :
  let d := pkt.(pkt_data) in
  (pkt.(kind) = aom_codec_cx_pkt_kind_AOM_CODEC_CX_FRAME_PKT ->
     exists p, AOMPacket.new mem pkt = Ret (AOMPacket.Frame p) /\
       copies mem d.(frame).(FramePkt.buf) d.(frame).(FramePkt.sz) p.(Packet.data) /\
       p.(Packet.t).(TimeInfo.pts) = Some d.(frame).(FramePkt.pts)) /\
  (pkt.(kind) = aom_codec_cx_pkt_kind_AOM_CODEC_STATS_PKT ->
     exists b, AOMPacket.new mem pkt = Ret (AOMPacket.TwoPassStats b) /\
       copies mem d.(twopass_stats).(buf) d.(twopass_stats).(sz) b) /\
  (pkt.(kind) = aom_codec_cx_pkt_kind_AOM_CODEC_FPMB_STATS_PKT ->
     exists b, AOMPacket.new mem pkt = Ret (AOMPacket.FirstPassMBStats b) /\
       copies mem d.(firstpass_mb_stats).(buf) d.(firstpass_mb_stats).(sz) b) /\
  (pkt.(kind) = aom_codec_cx_pkt_kind_AOM_CODEC_PSNR_PKT ->
     exists p, AOMPacket.new mem pkt = Ret (AOMPacket.PSNR p) /\
       p.(samples) = d.(psnr).(pkt_samples) /\ p.(psnr_vals) = d.(psnr).(pkt_psnr) /\
       p.(sse) = d.(psnr).(pkt_sse) /\ p.(samples_hbd) = d.(psnr).(pkt_samples_hbd) /\
       p.(sse_hbd) = d.(psnr).(pkt_sse_hbd) /\ p.(psnr_hbd) = d.(psnr).(pkt_psnr_hbd)) /\
  (pkt.(kind) = aom_codec_cx_pkt_kind_AOM_CODEC_CUSTOM_PKT ->
     exists b, AOMPacket.new mem pkt = Ret (AOMPacket.Raw b) /\
       copies mem d.(raw).(buf) d.(raw).(sz) b).
Proof.
  destruct pkt as [k d]; simpl.
  repeat split; intros ->; unfold AOMPacket.new; simpl;
    eexists; (split; [reflexivity|]);
    first [ by repeat split | split; [apply copy_nonoverlapping_copies | reflexivity]
          | apply to_buffer_copies ].
Qed.

Lemma AOMPacket_new_known_kinds_witness :
  AOMPacket.new sample_mem (sample_pkt 0) =
    Ret (AOMPacket.Frame (Packet.mk (to_buffer sample_mem (mk_fixed_buf 16 4)) None (-1)%Z
                            (TimeInfo.mk (Some 7%Z) None None) true false)) /\
  exists p, AOMPacket.new sample_mem (sample_pkt 0) = Ret (AOMPacket.Frame p) /\
    copies sample_mem 16 4 p.(Packet.data) /\ p.(Packet.t).(TimeInfo.pts) = Some 7%Z.
Proof.
  split; [reflexivity|].
  exact (proj1 (AOMPacket_new_known_kinds sample_mem (sample_pkt 0)) eq_refl).
Defined.

Lemma to_buffer_copies_buffer_witness :
  length (to_buffer sample_mem (mk_fixed_buf 65 3)) = 3%nat /\
  nth_error (to_buffer sample_mem (mk_fixed_buf 65 3)) 1 = Some (sample_mem 66).
Proof.
  split; [reflexivity|].
  exact (proj2 (to_buffer_copies_buffer sample_mem (mk_fixed_buf 65 3)) 1%nat ltac:(simpl; lia)).
Defined.

(** C8: on a packet whose kind is none of the five known kinds,
    [AOMPacket::new] panics with "Invalid aom packet kind detected", and so
    does [AV1Encoder::get_packet] when libaom hands it such a packet: it
    returns no variant for it. *)
Theorem get_packet_unknown_kind_panics (L : libaom) (enc : AV1Encoder) (tr : trace)
    (pkt : aom_codec_cx_pkt) (it : N) :
  L.(cx_data) tr enc.(ctx) enc.(iter) = (Some pkt, it) ->
  known_kind pkt.(kind) = false ->
  (forall mem, AOMPacket.new mem pkt = Panic invalid_kind_msg) /\
  fst (get_packet L enc tr) = Panic invalid_kind_msg.
Proof.
  intros Hcx Hk.
  unfold known_kind in Hk. rewrite !orb_false_iff in Hk.
  destruct Hk as [[[[H0 H1] H2] H3] H256].
  assert (Hnew : forall mem, AOMPacket.new mem pkt = Panic invalid_kind_msg).
  { intros mem. unfold AOMPacket.new. by rewrite H0, H1, H256, H2, H3. }
  split; [exact Hnew|].
  unfold get_packet, mbind, get_cx_data, read_mem, lift. rewrite Hcx. simpl.
  by rewrite Hnew.
Qed.

Lemma get_packet_unknown_kind_panics_witness :
  known_kind 4 = false /\ fst (get_packet (const_libaom 0 4) (mk_AV1Encoder 5 0) []) = Panic invalid_kind_msg.
Proof.
  split; [reflexivity|].
  exact (proj2 (get_packet_unknown_kind_panics (const_libaom 0 4) (mk_AV1Encoder 5 0) []
                  (sample_pkt 4) 1 eq_refl eq_refl)).
Defined.

(** ** The configuration builder *)

Lemma assign_same (f : cfg_field) (v : field_ty f) (c : aom_codec_enc_cfg) :
  assign f v c f = v.
Proof.
  unfold assign. destruct (decide (f = f)) as [e|n]; [|congruence].
  by rewrite (Eqdep_dec.UIP_dec cfg_field_eq_dec e eq_refl).
Qed.

Lemma assign_other (f g : cfg_field) (v : field_ty f) (c : aom_codec_enc_cfg) :
  g <> f -> assign f v c g = c g.
Proof.
  intros Hne. unfold assign. destruct (decide (f = g)) as [e|n]; [|done].
  by subst.
Qed.

Lemma setter_stores (f : cfg_field) (v : field_ty f) (self : N) (h : cfg_heap) :
  setter f v self h = (store_field self f v h, self).
Proof. destruct f; reflexivity. Qed.

(** C4: every setter of the builder, called through a reference [self] to a
    configuration [c], replaces that configuration by one whose own field
    holds the value and whose other fields are those of [c], touches no other
    object, and returns [self] itself for the next call of the chain. *)
Theorem setter_assigns_own_field (f : cfg_field) (v : field_ty f) (self : N)
    (h : cfg_heap) (c : AV1EncoderConfig) :
  h !! self = Some c ->
  exists c' : AV1EncoderConfig,
    setter f v self h = (<[self := c']> h, self) /\
    c'.(enc_cfg) f = v /\
    forall g : cfg_field, g <> f -> c'.(enc_cfg) g = c.(enc_cfg) g.
Proof.
  intros Hc. rewrite setter_stores. unfold store_field. rewrite Hc.
  eexists; split; [reflexivity|]. simpl.
  split; [apply assign_same|]. intros g Hg. by apply assign_other.
Qed.

Lemma setter_assigns_own_field_witness :
  exists c' : AV1EncoderConfig,
    setter F_rc_target_bitrate 3000 1 {[1 := mk_AV1EncoderConfig zeroed_cfg]} =
      (<[1 := c']> {[1 := mk_AV1EncoderConfig zeroed_cfg]}, 1) /\
    c'.(enc_cfg) F_rc_target_bitrate = 3000 /\
    forall g : cfg_field, g <> F_rc_target_bitrate -> c'.(enc_cfg) g = zeroed_cfg g.
Proof.
  exact (setter_assigns_own_field F_rc_target_bitrate 3000 1
           {[1 := mk_AV1EncoderConfig zeroed_cfg]} (mk_AV1EncoderConfig zeroed_cfg)
           ltac:(by rewrite lookup_singleton_eq)).
Defined.

(** C5: [AV1EncoderConfig::init] returns [Ok] with the record libaom's
    default-configuration call wrote exactly when that call returns
    [AOM_CODEC_OK]; for any other code it returns [Err] with a message that
    ends in the decimal code, and no configuration. *)
Theorem init_result (L : libaom) (config : N) (tr : trace) :
  let c := CallEncConfigDefault config in
  let code := L.(ret_code) tr c in
  snd (init L config tr) = tr ++ [c] /\
  (code = aom_codec_err_t_AOM_CODEC_OK ->
     fst (init L config tr) = Ret (Ok (mk_AV1EncoderConfig (L.(written_cfg) (tr ++ [c]))))) /\
  (code <> aom_codec_err_t_AOM_CODEC_OK ->
     fst (init L config tr) =
       Ret (Err ("Failed to initialize encoder: error code " +:+ pretty code))).
Proof.
  simpl. unfold init, mbind, call, read_cfg, mret. simpl.
  destruct (N.eqb_spec (ret_code L tr (CallEncConfigDefault config)) aom_codec_err_t_AOM_CODEC_OK)
    as [Hok|Hne]; simpl.
  - repeat split; intros; done.
  - repeat split; intros; done.
Qed.

Lemma init_result_witness :
  fst (init (const_libaom 3 0) 0 []) = Ret (Err ("Failed to initialize encoder: error code " +:+ pretty 3)).
Proof.
  exact (proj2 (proj2 (init_result (const_libaom 3 0) 0 [])) ltac:(discriminate)).
Defined.

(** ** The encoder handle *)

(** C2 (as the code behaves): whatever code libaom returns,
    [aom_codec_control], [flush] and (once the image and timestamp are
    built) [aom_codec_encode] return [Ok(())]: the arm named
    [aom_codec_err_t_AOM_CODEC_OK] binds every code. *)
Theorem codec_calls_ignore_return_code (L : libaom) (enc : AV1Encoder) (tr : trace) :
  (forall (id : N) (val : Z), fst (aom_codec_control L enc id val tr) = Ret (Ok tt, enc)) /\
  fst (flush L enc tr) = Ret (Ok tt, mk_AV1Encoder enc.(ctx) 0) /\
  (forall (frame : Frame.Frame) (img : aom_image) (p : Z),
     img_from_frame frame = Ret img -> frame.(Frame.t).(TimeInfo.pts) = Some p ->
     fst (aom_codec_encode L enc frame tr) = Ret (Ok tt, mk_AV1Encoder enc.(ctx) 0)).
Proof.
  split; [intros; reflexivity|]. split; [reflexivity|].
  intros frame img p Himg Hp.
  unfold aom_codec_encode, mbind, lift. rewrite Himg. simpl. by rewrite Hp.
Qed.

(** The failing input of C2: libaom answers [AOM_CODEC_ERROR] (1), the
    wrapper still reports success. *)
Lemma codec_calls_error_code_sample :
  (const_libaom 1 0).(ret_code) [] (CallEncode 5 None 0 1 0) = 1 /\
  fst (flush (const_libaom 1 0) (mk_AV1Encoder 5 0) []) = Ret (Ok tt, mk_AV1Encoder 5 0) /\
  fst (aom_codec_control (const_libaom 1 0) (mk_AV1Encoder 5 0) 13 2 []) = Ret (Ok tt, mk_AV1Encoder 5 0) /\
  fst (aom_codec_encode (const_libaom 1 0) (mk_AV1Encoder 5 0) (sample_video YUV420 (Some 3%Z)) [])
    = Ret (Ok tt, mk_AV1Encoder 5 0).
Proof. vm_compute. repeat split. Qed.

(** C10: [aom_codec_encode] on a frame without a timestamp panics before
    any call into libaom (with the message of [Option::unwrap] whenever the
    image was built); on a frame with timestamp [p] its one call into
    libaom is [aom_codec_encode] with exactly [p]. *)
Theorem aom_codec_encode_pts (L : libaom) (enc : AV1Encoder) (frame : Frame.Frame) (tr : trace) :
  (frame.(Frame.t).(TimeInfo.pts) = None ->
     (exists msg, fst (aom_codec_encode L enc frame tr) = Panic msg) /\
     snd (aom_codec_encode L enc frame tr) = tr /\
     forall img, img_from_frame frame = Ret img ->
       fst (aom_codec_encode L enc frame tr) = Panic unwrap_msg) /\
  (forall p : Z, frame.(Frame.t).(TimeInfo.pts) = Some p ->
     (exists msg, img_from_frame frame = Panic msg /\
        fst (aom_codec_encode L enc frame tr) = Panic msg /\
        snd (aom_codec_encode L enc frame tr) = tr) \/
     (exists img, img_from_frame frame = Ret img /\
        snd (aom_codec_encode L enc frame tr) = tr ++ [CallEncode enc.(ctx) (Some img) p 1 0])).
Proof.
  unfold aom_codec_encode, mbind, lift, call, mret.
  split.
  - intros Hp. rewrite Hp.
    destruct (img_from_frame frame) as [img|msg]; simpl.
    + split; [eauto|]. split; [done|]. intros ? _. done.
    + split; [eauto|]. split; [done|]. intros ? Hc. discriminate.
  - intros p Hp. rewrite Hp.
    destruct (img_from_frame frame) as [img|msg]; simpl.
    + right. eauto.
    + left. eauto.
Qed.

Lemma aom_codec_encode_pts_witness :
  fst (aom_codec_encode (const_libaom 0 0) (mk_AV1Encoder 5 0) (sample_video YUV420 None) [])
    = Panic unwrap_msg /\
  snd (aom_codec_encode (const_libaom 0 0) (mk_AV1Encoder 5 0) (sample_video YUV420 None) []) = [].
Proof.
  destruct (proj1 (aom_codec_encode_pts (const_libaom 0 0) (mk_AV1Encoder 5 0)
                     (sample_video YUV420 None) []) eq_refl) as [_ [Htr Hmsg]].
  split; [|exact Htr].
  apply (Hmsg (match img_from_frame (sample_video YUV420 None) with
               | Ret i => i | Panic _ => zeroed_image end)).
  vm_compute. reflexivity.
Defined.

(** ** Frame to image *)

Lemma set_stride_set_planes (img : aom_image) (P1 S1 P S : list _) :
  set_stride (set_planes (set_stride (set_planes img P1) S1) P) S = set_stride (set_planes img P) S.
Proof. by destruct img. Qed.

(** The plane loop writes, for each visited index in range, the plane
    address and the line size, and nothing else. *)
Lemma for_planes_spec (b : FrameBuffer) (img : aom_image) (is : list nat) :
  length img.(planes) = 3%nat -> length img.(stride) = 3%nat ->
  Forall (fun i => i < length b /\ i < 3)%nat is ->
  exists (P : list N) (S : list Z),
    for_planes b img is = Ret (set_stride (set_planes img P) S) /\
    length P = 3%nat /\ length S = 3%nat /\
    forall j : nat,
      (j ∈ is -> P !! j = plane_ptr <$> b !! j /\
                 S !! j = (fun p => as_i32 p.(plane_linesize)) <$> b !! j) /\
      (j ∉ is -> P !! j = img.(planes) !! j /\ S !! j = img.(stride) !! j).
Proof.
  revert img. induction is as [|i is IH]; intros img HP HS Hall.
  - exists img.(planes), img.(stride). split; [by destruct img|].
    split; [done|]. split; [done|]. intros j. split; [by rewrite elem_of_nil|done].
  - inversion Hall as [|? ? [Hib Hi3] Hall']; subst.
    destruct (lookup_lt_is_Some_2 b i Hib) as [s Hs].
    set (img1 := set_stride (set_planes img (<[i := s.(plane_ptr)]> img.(planes)))
                   (<[i := as_i32 s.(plane_linesize)]> img.(stride))).
    assert (Hstep : plane_step b img i = Ret img1).
    { unfold plane_step, as_slice, linesize, array_set. simpl. rewrite Hs. simpl.
      rewrite HP. destruct (Nat.ltb_spec i 3); [|lia]. simpl.
      destruct img; simpl in *. rewrite HS. destruct (Nat.ltb_spec i 3); [|lia]. done. }
    destruct (IH img1) as (P & S & Hrun & HPl & HSl & Hj); simpl;
      [by rewrite length_insert | by rewrite length_insert | done |].
    exists P, S. simpl. rewrite Hstep. simpl. rewrite Hrun.
    split; [unfold img1; by rewrite set_stride_set_planes|].
    split; [done|]. split; [done|].
    intros j. destruct (Hj j) as [Hin Hout]. split.
    + intros Hj'. destruct (decide (j ∈ is)) as [Hjs|Hjs]; [by apply Hin|].
      apply elem_of_cons in Hj' as [->|]; [|done].
      destruct (Hout Hjs) as [-> ->]. unfold img1; simpl. rewrite Hs; simpl.
      rewrite !list_lookup_insert_eq; [done| lia | lia].
    + intros Hj'. apply not_elem_of_cons in Hj' as [Hne Hjs].
      destruct (Hout Hjs) as [-> ->]. unfold img1; simpl.
      rewrite !list_lookup_insert_ne; done.
Qed.

(** Whatever the plane loop returns differs from its input in the plane
    pointers and strides only. *)
Lemma for_planes_only_planes (b : FrameBuffer) (img img' : aom_image) (is : list nat) :
  for_planes b img is = Ret img' ->
  exists (P : list N) (S : list Z), img' = set_stride (set_planes img P) S.
Proof.
  revert img. induction is as [|i is IH]; intros img Hrun; simpl in Hrun.
  - injection Hrun as <-. exists img.(planes), img.(stride). by destruct img.
  - unfold plane_step in Hrun.
    destruct (as_slice b i) as [s|]; simpl in Hrun; [|discriminate].
    destruct (array_set (planes img) i (plane_ptr s)) as [P1|]; simpl in Hrun; [|discriminate].
    destruct (linesize b i) as [l|]; simpl in Hrun; [|discriminate].
    destruct (array_set _ i (as_i32 l)) as [S1|];
      simpl in Hrun; [|discriminate].
    destruct (IH _ Hrun) as (P & S & ->). exists P, S. by rewrite set_stride_set_planes.
Qed.

Lemma map_formaton_YUV420 (img : aom_image) :
  map_formaton img YUV420 =
    Ret (map_fmt_to_img
           (set_y_chroma_shift (set_x_chroma_shift (set_bps (set_bit_depth
              (set_fmt img aom_img_fmt_AOM_IMG_FMT_I420) 8) 12%Z) 1) 1) YUV420).
Proof. unfold map_formaton. by rewrite decide_True. Qed.

Lemma map_formaton_other (img : aom_image) (fmt : Formaton) :
  fmt <> YUV420 -> map_formaton img fmt = Panic unimplemented_msg.
Proof. intros Hne. unfold map_formaton. by rewrite decide_False. Qed.




(** C9: [img_from_frame] maps only YUV420: on a YUV420 video frame it sets
    the format to I420, the bit depth to 8, the bits per sample to 12 and
    both chroma shifts to 1 (every image it returns carries them); on a
    video frame in any other format it panics ([unimplemented!]). *)
Theorem img_from_frame_formats (frame : Frame.Frame) (v : VideoInfo) :
  frame.(Frame.kind) = Video v ->
  (v.(format) = YUV420 ->
     (exists img0, map_formaton zeroed_image v.(format) = Ret img0 /\
        img0.(fmt) = aom_img_fmt_AOM_IMG_FMT_I420 /\ img0.(bit_depth) = 8 /\
        img0.(bps) = 12%Z /\ img0.(x_chroma_shift) = 1 /\ img0.(y_chroma_shift) = 1) /\
     forall img, img_from_frame frame = Ret img ->
       img.(fmt) = aom_img_fmt_AOM_IMG_FMT_I420 /\ img.(bit_depth) = 8 /\
       img.(bps) = 12%Z /\ img.(x_chroma_shift) = 1 /\ img.(y_chroma_shift) = 1) /\
  (v.(format) <> YUV420 -> img_from_frame frame = Panic unimplemented_msg).
Proof.
  intros Hk. split.
  - intros Hf. rewrite Hf, map_formaton_YUV420. split; [eexists; split; [reflexivity|]; done|].
    intros img Himg. unfold img_from_frame in Himg. rewrite Hk, Hf, map_formaton_YUV420 in Himg.
    simpl in Himg. apply for_planes_only_planes in Himg as (P & S & ->). done.
  - intros Hf. unfold img_from_frame. rewrite Hk. by rewrite map_formaton_other.
Qed.

Lemma img_from_frame_formats_witness :
  img_from_frame (sample_video YUV444 None) = Panic unimplemented_msg /\
  forall img, img_from_frame (sample_video YUV420 None) = Ret img ->
    img.(fmt) = aom_img_fmt_AOM_IMG_FMT_I420 /\ img.(bit_depth) = 8 /\
    img.(bps) = 12%Z /\ img.(x_chroma_shift) = 1 /\ img.(y_chroma_shift) = 1.
Proof.
  split.
  - exact (proj2 (img_from_frame_formats (sample_video YUV444 None) (mk_video_info 0 8 8 YUV444)
                    eq_refl) ltac:(vm_compute; discriminate)).
  - exact (proj2 (proj1 (img_from_frame_formats (sample_video YUV420 None)
                           (mk_video_info 0 8 8 YUV420) eq_refl) eq_refl)).
Defined.

(** ** Release of the encoder context *)

Section Release.

Variable L : libaom.

Lemma mret_no_destroy {A} (a : A) : no_destroy_calls (mret a).
Proof. intros tr. exists []. by rewrite app_nil_r. Qed.

Lemma lift_no_destroy {A} (o : outcome A) : no_destroy_calls (lift o).
Proof. intros tr. exists []. by rewrite app_nil_r. Qed.

Lemma call_no_destroy (c : native_call) : not_destroy c -> no_destroy_calls (call L c).
Proof. intros Hc tr. exists [c]. split; [done|]. by constructor. Qed.

Lemma read_mem_no_destroy : no_destroy_calls (read_mem L).
Proof. intros tr. exists []. by rewrite app_nil_r. Qed.

Lemma get_cx_data_no_destroy (c it : N) : no_destroy_calls (get_cx_data L c it).
Proof. intros tr. exists [CallGetCxData c it]. split; [done|]. by constructor. Qed.

Lemma mbind_no_destroy {A B} (m : M A) (k : A -> M B) :
  no_destroy_calls m -> (forall a, no_destroy_calls (k a)) -> no_destroy_calls (mbind m k).
Proof.
  intros Hm Hk tr. unfold mbind. destruct (Hm tr) as (mid & Htr & Hmid).
  destruct (m tr) as [[a|s] tr'] eqn:E; simpl in Htr; subst tr'.
  - destruct (Hk a (tr ++ mid)) as (mid' & Htr' & Hmid').
    exists (mid ++ mid'). rewrite Htr', app_assoc. split; [done|]. by apply Forall_app.
  - by exists mid.
Qed.

Create HintDb no_destroy.
#[local] Hint Resolve mret_no_destroy lift_no_destroy read_mem_no_destroy
  get_cx_data_no_destroy mbind_no_destroy : no_destroy.

Ltac no_destroy_tac :=
  repeat (apply mbind_no_destroy; [|intros]);
  first [ apply call_no_destroy; exact I | eauto with no_destroy ].

Lemma run_op_no_destroy (enc : AV1Encoder) (op : enc_op) :
  no_destroy_calls (run_op L enc op).
Proof.
  destruct op; simpl; (apply mbind_no_destroy; [|intros; apply mret_no_destroy]).
  - unfold aom_codec_control. no_destroy_tac.
  - unfold aom_codec_encode. no_destroy_tac.
  - unfold flush. no_destroy_tac.
  - unfold get_packet. apply mbind_no_destroy; [eauto with no_destroy|].
    intros [[pkt|] it]; simpl; no_destroy_tac.
Qed.

Lemma run_op_ctx (enc enc' : AV1Encoder) (op : enc_op) (tr tr' : trace) :
  run_op L enc op tr = (Ret enc', tr') -> enc'.(ctx) = enc.(ctx).
Proof.
  destruct op; simpl; unfold mbind, mret, lift, call.
  - intros H. by injection H as <- _.
  - unfold aom_codec_encode, mbind, lift, call, mret.
    destruct (img_from_frame frame0); simpl; [|discriminate].
    destruct (unwrap _); simpl; [|discriminate]. intros H. by injection H as <- _.
  - intros H. by injection H as <- _.
  - unfold get_packet, mbind, get_cx_data, read_mem, lift, mret. simpl.
    destruct (cx_data L tr (ctx enc) (iter enc)) as [[pkt|] it]; simpl.
    + destruct (AOMPacket.new _ pkt); simpl; [|discriminate]. intros H. by injection H as <- _.
    + intros H. by injection H as <- _.
Qed.

Lemma run_ops_no_destroy (enc : AV1Encoder) (ops : list enc_op) :
  no_destroy_calls (run_ops L enc ops).
Proof.
  revert enc. induction ops as [|op ops IH]; intros enc; simpl.
  - apply mret_no_destroy.
  - apply mbind_no_destroy; [apply run_op_no_destroy | intros; apply IH].
Qed.

Lemma run_ops_ctx (enc enc' : AV1Encoder) (ops : list enc_op) (tr tr' : trace) :
  run_ops L enc ops tr = (Ret enc', tr') -> enc'.(ctx) = enc.(ctx).
Proof.
  revert enc tr. induction ops as [|op ops IH]; intros enc tr; simpl; unfold mret, mbind.
  - intros H. by injection H as <- _.
  - destruct (run_op L enc op tr) as [[e1|s] tr1] eqn:E; [|discriminate].
    intros H. rewrite (IH _ _ H). by apply (run_op_ctx _ _ _ _ _ E).
Qed.

End Release.

Lemma new_ok (L : libaom) (cfg : AV1EncoderConfig) (tr0 : trace) :
  let c0 := CallEncInit cfg.(enc_cfg) in
  let ctx0 := L.(written_ctx) (tr0 ++ [c0]) in
  L.(ret_code) tr0 c0 = 0 ->
  new L cfg tr0 =
    (Ret (Ok (mk_AV1Encoder ctx0 0)),
     tr0 ++ [c0] ++ [CallControl ctx0 (as_i32 aome_enc_control_id_AOME_SET_CPUUSED) 2]).
Proof.
  simpl. intros H0. unfold new, mbind, call, read_ctx, unwinding, aom_codec_control, mret.
  rewrite H0. simpl. by rewrite <- app_assoc.
Qed.

Lemma new_err (L : libaom) (cfg : AV1EncoderConfig) (tr0 : trace) :
  let c0 := CallEncInit cfg.(enc_cfg) in
  L.(ret_code) tr0 c0 <> 0 ->
  new L cfg tr0 = (Ret (Err (L.(ret_code) tr0 c0)), tr0 ++ [c0]).
Proof.
  simpl. intros H0. unfold new, mbind, call, mret.
  destruct (N.eqb_spec (ret_code L tr0 (CallEncInit (enc_cfg cfg))) 0); [done|]. done.
Qed.

(** C7: in a scope that creates an encoder and calls any sequence of its
    methods, the context libaom initialised is destroyed exactly once: the
    destroy call is the last call of the scope, made on that context, and
    no call before it (the CPUUSED control of [new], the methods, a panic
    of any of them) destroys anything.  When [aom_codec_enc_init_ver]
    fails there is no encoder, and nothing is destroyed. *)
Theorem encoder_context_destroyed_once (L : libaom) (cfg : AV1EncoderConfig)
    (ops : list enc_op) (tr0 : trace) :
  let c0 := CallEncInit cfg.(enc_cfg) in
  let tr := snd (with_encoder L cfg ops tr0) in
  (L.(ret_code) tr0 c0 = 0 ->
     exists mid : trace,
       tr = tr0 ++ c0 :: mid ++ [CallDestroy (L.(written_ctx) (tr0 ++ [c0]))] /\
       Forall not_destroy mid) /\
  (L.(ret_code) tr0 c0 <> 0 -> tr = tr0 ++ [c0]).
Proof.
  simpl. split.
  - intros H0. unfold with_encoder, mbind at 1. rewrite (new_ok L cfg tr0 H0).
    set (ctx0 := written_ctx L (tr0 ++ [CallEncInit (enc_cfg cfg)])).
    set (cc := CallControl ctx0 (as_i32 aome_enc_control_id_AOME_SET_CPUUSED) 2).
    set (tr1 := tr0 ++ [CallEncInit (enc_cfg cfg)] ++ [cc]).
    destruct (run_ops_no_destroy L (mk_AV1Encoder ctx0 0) ops tr1) as (mid & Hmid & Hnd).
    unfold mbind, unwinding.
    destruct (run_ops L (mk_AV1Encoder ctx0 0) ops tr1) as [[enc'|s] tr2] eqn:E;
      simpl in Hmid; subst tr2.
    + pose proof (run_ops_ctx L _ _ _ _ _ E) as Hc. simpl in Hc.
      unfold drop, mbind, call, mret. simpl. rewrite Hc.
      exists (cc :: mid). split; [|by constructor].
      unfold tr1. by rewrite <- !app_assoc.
    + unfold drop, mbind, call, mret. simpl.
      exists (cc :: mid). split; [|by constructor].
      unfold tr1. by rewrite <- !app_assoc.
  - intros H0. unfold with_encoder, mbind at 1. rewrite (new_err L cfg tr0 H0). done.
Qed.

Lemma encoder_context_destroyed_once_witness :
  exists mid : trace,
    snd (with_encoder (const_libaom 0 0) (mk_AV1EncoderConfig zeroed_cfg)
           [OpEncode (sample_video YUV420 (Some 0%Z)); OpFlush; OpGetPacket] []) =
      [] ++ CallEncInit zeroed_cfg :: mid ++ [CallDestroy 5] /\
    Forall not_destroy mid.
Proof.
  exact (proj1 (encoder_context_destroyed_once (const_libaom 0 0) (mk_AV1EncoderConfig zeroed_cfg)
                  [OpEncode (sample_video YUV420 (Some 0%Z)); OpFlush; OpGetPacket] []) eq_refl).
Defined.

(** ** Further properties of the packet decode *)

Lemma land_1_testbit (x : N) : N.land x AOM_FRAME_IS_KEY = 0 <-> N.testbit x 0 = false.
Proof.
  unfold AOM_FRAME_IS_KEY. change 1 with (N.ones 1). rewrite N.land_ones.
  change (2 ^ 1) with 2. rewrite <- N.bit0_mod.
  destruct (N.testbit x 0); simpl; split; intros; done.
Qed.

(** A frame packet becomes a [Packet] with the frame's timestamp as [pts],
    [is_key] set exactly when bit [AOM_FRAME_IS_KEY] of the flags is set,
    and every other field as [Packet::with_capacity] leaves it: no
    position, stream index -1, no [dts] or duration, not corrupted. *)
Theorem AOMPacket_new_frame_metadata (mem : memory) (pkt : aom_codec_cx_pkt) :
  pkt.(kind) = aom_codec_cx_pkt_kind_AOM_CODEC_CX_FRAME_PKT ->
  exists p : Packet.Packet,
    AOMPacket.new mem pkt = Ret (AOMPacket.Frame p) /\
    p.(Packet.t) = TimeInfo.mk (Some pkt.(pkt_data).(frame).(FramePkt.pts)) None None /\
    (p.(Packet.is_key) = true <-> N.testbit pkt.(pkt_data).(frame).(FramePkt.flags) 0 = true) /\
    p.(Packet.pos) = None /\ p.(Packet.stream_index) = (-1)%Z /\
    p.(Packet.is_corrupted) = false.
Proof.
  intros Hk. unfold AOMPacket.new. rewrite Hk. simpl.
  eexists; split; [reflexivity|]. simpl. split; [done|]. split; [|done].
  pose proof (land_1_testbit (FramePkt.flags (frame (pkt_data pkt)))) as Hb.
  destruct (N.eqb_spec (N.land (FramePkt.flags (frame (pkt_data pkt))) AOM_FRAME_IS_KEY) 0)
    as [E|E]; simpl.
  - apply Hb in E. rewrite E. done.
  - destruct (N.testbit _ 0); [done|]. exfalso. by apply E, Hb.
Qed.

Lemma AOMPacket_new_frame_metadata_witness :
  exists p : Packet.Packet,
    AOMPacket.new sample_mem (sample_pkt 0) = Ret (AOMPacket.Frame p) /\
    p.(Packet.t) = TimeInfo.mk (Some 7%Z) None None /\
    (p.(Packet.is_key) = true <-> N.testbit 1 0 = true) /\
    p.(Packet.pos) = None /\ p.(Packet.stream_index) = (-1)%Z /\
    p.(Packet.is_corrupted) = false.
Proof. exact (AOMPacket_new_frame_metadata sample_mem (sample_pkt 0) eq_refl). Defined.

Lemma copy_nonoverlapping_ext (mem1 mem2 : memory) (src : N) (n : nat) :
  (forall a, src <= a < src + N.of_nat n -> mem1 a = mem2 a) ->
  copy_nonoverlapping mem1 src n = copy_nonoverlapping mem2 src n.
Proof.
  revert src; induction n as [|n IH]; intros src H; simpl; [done|].
  rewrite H by lia. f_equal. apply IH. intros a Ha. apply H. lia.
Qed.

(** [AOMPacket::new] reads native memory only inside the buffer of the
    union member its kind selects: two memories that agree there give the
    same result (PSNR and unknown kinds read no memory at all). *)
Theorem AOMPacket_new_reads_only_payload (mem1 mem2 : memory) (pkt : aom_codec_cx_pkt) :
  (forall a, fst (read_range pkt) <= a < fst (read_range pkt) + snd (read_range pkt) ->
     mem1 a = mem2 a) ->
  AOMPacket.new mem1 pkt = AOMPacket.new mem2 pkt.
Proof.
  unfold read_range, AOMPacket.new, to_buffer. intros H.
  repeat match goal with
         | |- context [N.eqb ?k ?c] => destruct (N.eqb k c); simpl in H
         end; try done;
  (erewrite copy_nonoverlapping_ext; [reflexivity|]); intros a Ha; apply H; lia.
Qed.

Lemma AOMPacket_new_reads_only_payload_witness :
  AOMPacket.new sample_mem (sample_pkt 1) =
    AOMPacket.new (fun a => if (32 <=? a) && (a <? 35) then sample_mem a else Byte.x00) (sample_pkt 1).
Proof.
  apply AOMPacket_new_reads_only_payload. simpl. intros a Ha.
  destruct (N.leb_spec 32 a); destruct (N.ltb_spec a 35); simpl; try done; lia.
Defined.

Lemma AOMPacket_new_known (mem : memory) (pkt : aom_codec_cx_pkt) :
  known_kind pkt.(kind) = true -> exists a, AOMPacket.new mem pkt = Ret a.
Proof.
  intros Hk. unfold known_kind in Hk. unfold AOMPacket.new.
  repeat match goal with
         | |- context [N.eqb ?k ?c] => destruct (N.eqb k c) eqn:?
         end; eauto.
  repeat match goal with
         | H : N.eqb _ _ = false |- _ => rewrite H in Hk; clear H
         end.
  discriminate.
Qed.

Lemma AOMPacket_new_unknown (mem : memory) (pkt : aom_codec_cx_pkt) :
  known_kind pkt.(kind) = false -> AOMPacket.new mem pkt = Panic invalid_kind_msg.
Proof.
  intros Hk. unfold known_kind in Hk. rewrite !orb_false_iff in Hk.
  destruct Hk as [[[[H0 H1] H2] H3] H256].
  unfold AOMPacket.new. by rewrite H0, H1, H256, H2, H3.
Qed.

(** [AV1Encoder::get_packet] panics only when libaom hands it a packet of
    an unknown kind, and then with "Invalid aom packet kind detected". *)
Theorem get_packet_panics_only_on_unknown_kind (L : libaom) (enc : AV1Encoder) (tr : trace)
    (msg : string) :
  fst (get_packet L enc tr) = Panic msg ->
  exists pkt it, L.(cx_data) tr enc.(ctx) enc.(iter) = (Some pkt, it) /\
    known_kind pkt.(kind) = false /\ msg = invalid_kind_msg.
Proof.
  unfold get_packet, mbind, get_cx_data, read_mem, lift, mret. simpl.
  destruct (cx_data L tr (ctx enc) (iter enc)) as [[pkt|] it] eqn:E; simpl; [|discriminate].
  destruct (known_kind (kind pkt)) eqn:Hk.
  - destruct (AOMPacket_new_known (native_mem L (tr ++ [CallGetCxData (ctx enc) (iter enc)])) pkt Hk)
      as [a ->]. discriminate.
  - intros Hp. exists pkt, it. split; [done|]. split; [done|].
    pose proof (AOMPacket_new_unknown (native_mem L (tr ++ [CallGetCxData (ctx enc) (iter enc)])) pkt Hk)
      as Hn. rewrite Hn in Hp. by injection Hp.
Qed.

Lemma get_packet_panics_only_on_unknown_kind_witness :
  exists pkt it, (const_libaom 0 4).(cx_data) [] 5 0 = (Some pkt, it) /\
    known_kind pkt.(kind) = false /\ invalid_kind_msg = invalid_kind_msg.
Proof.
  apply (get_packet_panics_only_on_unknown_kind (const_libaom 0 4) (mk_AV1Encoder 5 0) []
           invalid_kind_msg).
  vm_compute. reflexivity.
Defined.

(** ** Further properties of the encoder handle *)

(** [AV1Encoder::new]: when [aom_codec_enc_init_ver] fails it returns
    [Err] with that code and makes no other call; when it succeeds it sets
    CPUUSED to 2 on the new context and returns [Ok] with that context and a
    null iterator, whatever the CPUUSED control returns, so it never
    panics. *)
Theorem AV1Encoder_new_result (L : libaom) (cfg : AV1EncoderConfig) (tr0 : trace) :
  let c0 := CallEncInit cfg.(enc_cfg) in
  let ctx0 := L.(written_ctx) (tr0 ++ [c0]) in
  (L.(ret_code) tr0 c0 <> 0 ->
     new L cfg tr0 = (Ret (Err (L.(ret_code) tr0 c0)), tr0 ++ [c0])) /\
  (L.(ret_code) tr0 c0 = 0 ->
     new L cfg tr0 = (Ret (Ok (mk_AV1Encoder ctx0 0)), tr0 ++ [c0; CallControl ctx0 13 2])).
Proof.
  simpl. split; [apply new_err|].
  intros H0. rewrite (new_ok L cfg tr0 H0). done.
Qed.

Lemma AV1Encoder_new_result_witness :
  new failing_control_libaom (mk_AV1EncoderConfig zeroed_cfg) [] =
    (Ret (Ok (mk_AV1Encoder 5 0)), [CallEncInit zeroed_cfg; CallControl 5 13 2]).
Proof.
  exact (proj2 (AV1Encoder_new_result failing_control_libaom (mk_AV1EncoderConfig zeroed_cfg) [])
           eq_refl).
Defined.

(** [AV1Encoder::get_packet] makes exactly one call,
    [aom_codec_get_cx_data] on its context and current iterator, keeps
    the iterator libaom wrote back, and returns [None] for a null packet and
    [Some] of the decoded packet for a packet of a known kind. *)
Theorem get_packet_spec (L : libaom) (enc : AV1Encoder) (tr : trace) :
  let c := CallGetCxData enc.(ctx) enc.(iter) in
  let r := L.(cx_data) tr enc.(ctx) enc.(iter) in
  snd (get_packet L enc tr) = tr ++ [c] /\
  (fst r = None -> fst (get_packet L enc tr) = Ret (None, mk_AV1Encoder enc.(ctx) (snd r))) /\
  (forall pkt, fst r = Some pkt -> known_kind pkt.(kind) = true ->
     exists a, AOMPacket.new (L.(native_mem) (tr ++ [c])) pkt = Ret a /\
       fst (get_packet L enc tr) = Ret (Some a, mk_AV1Encoder enc.(ctx) (snd r))).
Proof.
  simpl. unfold get_packet, mbind, get_cx_data, read_mem, lift, mret. simpl.
  destruct (cx_data L tr (ctx enc) (iter enc)) as [[pkt|] it]; simpl.
  - destruct (known_kind (kind pkt)) eqn:Hk.
    + destruct (AOMPacket_new_known (native_mem L (tr ++ [CallGetCxData (ctx enc) (iter enc)])) pkt Hk)
        as [a Ha]. rewrite Ha. simpl.
      split; [done|]. split; [discriminate|]. intros p [= <-] _. eauto.
    + rewrite AOMPacket_new_unknown by done. simpl.
      split; [done|]. split; [discriminate|]. intros p [= <-] H. congruence.
  - split; [done|]. split; [done|]. discriminate.
Qed.

(** [flush] calls [aom_codec_encode] with a null image, timestamp 0,
    duration 1 and flags 0; [flush] and [aom_codec_encode] both reset the
    packet iterator to null.  So after either, [get_packet] asks libaom for
    packets from the start, and consecutive [get_packet] calls pass on the
    iterator libaom returned: when the first call gets no packet or a packet
    of a known kind, the second asks from the iterator the first got back;
    a packet of unknown kind panics before any second call. *)
Theorem packet_iterator_protocol (L : libaom) (enc : AV1Encoder) (tr : trace) :
  snd (run_ops L enc [OpFlush; OpGetPacket] tr) =
    tr ++ [CallEncode enc.(ctx) None 0 1 0; CallGetCxData enc.(ctx) 0] /\
  (forall (frame : Frame.Frame) (img : aom_image) (p : Z),
     img_from_frame frame = Ret img -> frame.(Frame.t).(TimeInfo.pts) = Some p ->
     snd (run_ops L enc [OpEncode frame; OpGetPacket] tr) =
       tr ++ [CallEncode enc.(ctx) (Some img) p 1 0; CallGetCxData enc.(ctx) 0]) /\
  (match fst (L.(cx_data) tr enc.(ctx) enc.(iter)) with
   | None => True
   | Some pkt => known_kind pkt.(kind) = true
   end ->
     snd (run_ops L enc [OpGetPacket; OpGetPacket] tr) =
       tr ++ [CallGetCxData enc.(ctx) enc.(iter);
              CallGetCxData enc.(ctx) (snd (L.(cx_data) tr enc.(ctx) enc.(iter)))]) /\
  (forall pkt, fst (L.(cx_data) tr enc.(ctx) enc.(iter)) = Some pkt ->
     known_kind pkt.(kind) = false ->
     run_ops L enc [OpGetPacket; OpGetPacket] tr =
       (Panic invalid_kind_msg, tr ++ [CallGetCxData enc.(ctx) enc.(iter)])).
Proof.
  split; [|split; [|split]].
  - unfold run_ops, run_op, flush, get_packet, mbind, call, mret, get_cx_data, read_mem, lift.
    simpl. destruct (cx_data _ _ _ _) as [[pkt|] it]; simpl; [|by rewrite <- app_assoc].
    destruct (AOMPacket.new _ pkt); simpl; by rewrite <- app_assoc.
  - intros frame img p Himg Hp.
    unfold run_ops, run_op, aom_codec_encode, get_packet, mbind, call, mret, get_cx_data,
      read_mem, lift.
    rewrite Himg. simpl. rewrite Hp. simpl.
    destruct (cx_data _ _ _ _) as [[pkt|] it]; simpl; [|by rewrite <- app_assoc].
    destruct (AOMPacket.new _ pkt); simpl; by rewrite <- app_assoc.
  - unfold run_ops, run_op, get_packet, mbind, mret, get_cx_data, read_mem, lift. simpl.
    set (tr1 := tr ++ [CallGetCxData (ctx enc) (iter enc)]).
    destruct (cx_data L tr (ctx enc) (iter enc)) as [[pkt|] it] eqn:E; simpl; intros Hk.
    + destruct (AOMPacket_new_known (native_mem L tr1) pkt Hk) as [a Ha].
      rewrite Ha. simpl.
      destruct (cx_data L tr1 (ctx enc) it) as [[pkt'|] it']; simpl;
        [|by unfold tr1; rewrite <- app_assoc].
      destruct (AOMPacket.new _ pkt'); simpl; by unfold tr1; rewrite <- app_assoc.
    + destruct (cx_data L tr1 (ctx enc) it) as [[pkt'|] it']; simpl;
        [|by unfold tr1; rewrite <- app_assoc].
      destruct (AOMPacket.new _ pkt'); simpl; by unfold tr1; rewrite <- app_assoc.
  - intros pkt Hpkt Hk.
    unfold run_ops, run_op, get_packet, mbind, mret, get_cx_data, read_mem, lift. simpl.
    destruct (cx_data L tr (ctx enc) (iter enc)) as [o it]. simpl in Hpkt. subst o. simpl.
    rewrite AOMPacket_new_unknown by done. done.
Qed.

Lemma packet_iterator_protocol_witness :
  snd (run_ops (const_libaom 0 0) (mk_AV1Encoder 5 9) [OpGetPacket; OpGetPacket] []) =
    [CallGetCxData 5 9; CallGetCxData 5 10].
Proof.
  exact (proj1 (proj2 (proj2 (packet_iterator_protocol (const_libaom 0 0)
                                (mk_AV1Encoder 5 9) []))) eq_refl).
Defined.

(** ** Further properties of the frame conversion *)

Lemma for_planes_app (b : FrameBuffer) (img : aom_image) (l1 l2 : list nat) :
  for_planes b img (l1 ++ l2) = obind (for_planes b img l1) (fun img => for_planes b img l2).
Proof.
  revert img. induction l1 as [|i l1 IH]; intros img; simpl; [done|].
  destruct (plane_step b img i); simpl; [apply IH|done].
Qed.

(** The image header [img_from_frame] builds before the plane loop: zero
    for a non-video frame, the mapped format and sizes for a YUV420 one. *)
Lemma img_from_frame_header (frame : Frame.Frame) (hdr : aom_image) :
  ((exists a, frame.(Frame.kind) = Audio a) /\ hdr = zeroed_image) \/
  (exists v, frame.(Frame.kind) = Video v /\ v.(format) = YUV420 /\
     hdr = set_d_h (set_d_w (set_h (set_w (map_fmt_to_img
             (set_y_chroma_shift (set_x_chroma_shift (set_bps (set_bit_depth
               (set_fmt zeroed_image aom_img_fmt_AOM_IMG_FMT_I420) 8) 12%Z) 1) 1) YUV420)
             (as_u32 v.(width))) (as_u32 v.(height))) (as_u32 v.(width))) (as_u32 v.(height))) ->
  img_from_frame frame = for_planes frame.(Frame.buf) hdr (seq 0 (count frame.(Frame.buf))).
Proof.
  intros [[[a Hk] ->] | (v & Hk & Hf & ->)]; unfold img_from_frame; rewrite Hk; [done|].
  rewrite Hf, map_formaton_YUV420. done.
Qed.



Lemma as_i32_small (x : N) : x < 2 ^ 31 -> as_i32 x = Z.of_N x.
Proof.
  intros Hx. unfold as_i32. rewrite N.mod_small by lia.
  destruct (Z.ltb_spec (Z.of_N x) (2 ^ 31)); lia.
Qed.

Lemma as_i32_wrap (x : N) : 2 ^ 31 <= x < 2 ^ 32 -> as_i32 x = (Z.of_N x - 2 ^ 32)%Z.
Proof.
  intros Hx. unfold as_i32. rewrite N.mod_small by lia.
  destruct (Z.ltb_spec (Z.of_N x) (2 ^ 31)); lia.
Qed.

(** For an audio or YUV420 frame with at most three planes,
    [img_from_frame] fills one slot per plane and leaves the remaining
    slots of the image as [mem::zeroed] made them (null pointer, stride 0);
    each stride is the line size when it is below [2^31], and a line size
    in [[2^31, 2^32)] becomes the negative stride [linesize - 2^32]. *)
Theorem img_from_frame_plane_slots (frame : Frame.Frame) :
  (count frame.(Frame.buf) <= 3)%nat ->
  (exists a, frame.(Frame.kind) = Audio a) \/
  (exists v, frame.(Frame.kind) = Video v /\ v.(format) = YUV420) ->
  exists img : aom_image,
    img_from_frame frame = Ret img /\
    length img.(planes) = 3%nat /\ length img.(stride) = 3%nat /\
    (forall i : nat, (count frame.(Frame.buf) <= i < 3)%nat ->
       img.(planes) !! i = Some 0 /\ img.(stride) !! i = Some 0%Z) /\
    (forall (i : nat) (p : Plane), frame.(Frame.buf) !! i = Some p ->
       (p.(plane_linesize) < 2 ^ 31 -> img.(stride) !! i = Some (Z.of_N p.(plane_linesize))) /\
       (2 ^ 31 <= p.(plane_linesize) < 2 ^ 32 ->
          img.(stride) !! i = Some (Z.of_N p.(plane_linesize) - 2 ^ 32)%Z)).
Proof.
  intros Hc Hk.
  assert (Hrun : exists hdr, img_from_frame frame =
                   for_planes frame.(Frame.buf) hdr (seq 0 (count frame.(Frame.buf))) /\
                   hdr.(planes) = [0; 0; 0] /\ hdr.(stride) = [0%Z; 0%Z; 0%Z]).
  { destruct Hk as [[a Ha] | (v & Hv & Hf)].
    - eexists. split; [apply img_from_frame_header; left; eauto|]. done.
    - eexists. split; [apply img_from_frame_header; right; eauto|]. done. }
  destruct Hrun as (hdr & -> & HP0 & HS0).
  set (b := Frame.buf frame) in *.
  destruct (for_planes_spec b hdr (seq 0 (count b))) as (P & S & Hrun & HPl & HSl & Hj);
    [by rewrite HP0 | by rewrite HS0 | |].
  { apply Forall_seq. intros j Hj. unfold count in *. lia. }
  rewrite Hrun. eexists; split; [reflexivity|]. simpl.
  split; [done|]. split; [done|]. split.
  - intros i Hi. assert (Hn : i ∉ seq 0 (count b)) by (rewrite elem_of_seq; lia).
    destruct (proj2 (Hj i) Hn) as [-> ->]. rewrite HP0, HS0.
    destruct i as [|[|[|]]]; simpl; try done; lia.
  - intros i p Hp.
    assert (Hi : i ∈ seq 0 (count b)).
    { apply elem_of_seq. apply lookup_lt_Some in Hp. unfold count. lia. }
    destruct (proj1 (Hj i) Hi) as [_ ->]. rewrite Hp. simpl. split; intros Hl.
    + by rewrite as_i32_small.
    + by rewrite as_i32_wrap.
Qed.

Lemma img_from_frame_plane_slots_witness :
  exists img : aom_image,
    img_from_frame (Frame.mk (Video (mk_video_info 0 8 8 YUV420)) [mk_plane 1000 64 (2 ^ 31)]
                      (TimeInfo.mk None None None)) = Ret img /\
    length img.(planes) = 3%nat /\ length img.(stride) = 3%nat /\
    (forall i : nat, (1 <= i < 3)%nat -> img.(planes) !! i = Some 0 /\ img.(stride) !! i = Some 0%Z) /\
    (forall (i : nat) (p : Plane), [mk_plane 1000 64 (2 ^ 31)] !! i = Some p ->
       (p.(plane_linesize) < 2 ^ 31 -> img.(stride) !! i = Some (Z.of_N p.(plane_linesize))) /\
       (2 ^ 31 <= p.(plane_linesize) < 2 ^ 32 ->
          img.(stride) !! i = Some (Z.of_N p.(plane_linesize) - 2 ^ 32)%Z)).
Proof.
  apply (img_from_frame_plane_slots
           (Frame.mk (Video (mk_video_info 0 8 8 YUV420)) [mk_plane 1000 64 (2 ^ 31)]
              (TimeInfo.mk None None None)) ltac:(simpl; lia)).
  right. eexists. split; reflexivity.
Defined.

(** A non-video frame gets no format, size or colour information:
    [img_from_frame] leaves the format, the sizes, the bit depth, the bits
    per sample, the chroma shifts and the colour fields at zero. *)
Theorem img_from_frame_audio_header (frame : Frame.Frame) (a : AudioInfo) (img : aom_image) :
  frame.(Frame.kind) = Audio a ->
  img_from_frame frame = Ret img ->
  img.(fmt) = 0 /\ img.(w) = 0 /\ img.(h) = 0 /\ img.(d_w) = 0 /\ img.(d_h) = 0 /\
  img.(bit_depth) = 0 /\ img.(bps) = 0%Z /\ img.(x_chroma_shift) = 0 /\
  img.(y_chroma_shift) = 0 /\ img.(cp) = 0 /\ img.(tc) = 0 /\ img.(mc) = 0.
Proof.
  intros Hk Himg.
  rewrite (img_from_frame_header frame zeroed_image (or_introl (conj (ex_intro _ a Hk) eq_refl)))
    in Himg.
  apply for_planes_only_planes in Himg as (P & S & ->). done.
Qed.

Lemma img_from_frame_audio_header_witness :
  exists img, img_from_frame (Frame.mk (Audio (mk_audio_info 0 0)) sample_planes
                                (TimeInfo.mk None None None)) = Ret img /\
  img.(fmt) = 0 /\ img.(w) = 0 /\ img.(h) = 0 /\ img.(d_w) = 0 /\ img.(d_h) = 0 /\
  img.(bit_depth) = 0 /\ img.(bps) = 0%Z /\ img.(x_chroma_shift) = 0 /\
  img.(y_chroma_shift) = 0 /\ img.(cp) = 0 /\ img.(tc) = 0 /\ img.(mc) = 0.
Proof.
  eexists. split; [vm_compute; reflexivity|].
  apply (img_from_frame_audio_header (Frame.mk (Audio (mk_audio_info 0 0)) sample_planes
                                         (TimeInfo.mk None None None)) (mk_audio_info 0 0));
    [reflexivity | vm_compute; reflexivity].
Defined.

(** ** Chaining setters *)

(** Two chained setter calls, [cfg.f(vf).g(vg)]: the second acts on the
    object the first returned, so the configuration ends up holding [vg] in
    field [g], [vf] in field [f] when the fields differ (the later value
    wins when they are the same), its original values elsewhere, and no
    other object changes. *)
Theorem setter_chain (f g : cfg_field) (vf : field_ty f) (vg : field_ty g) (self : N)
    (h : cfg_heap) (c : AV1EncoderConfig) :
  h !! self = Some c ->
  let h1 := fst (setter f vf self h) in
  let r1 := snd (setter f vf self h) in
  let h2 := fst (setter g vg r1 h1) in
  snd (setter g vg r1 h1) = self /\
  exists c2 : AV1EncoderConfig,
    h2 !! self = Some c2 /\
    c2.(enc_cfg) g = vg /\
    (g <> f -> c2.(enc_cfg) f = vf) /\
    (forall k, k <> f -> k <> g -> c2.(enc_cfg) k = c.(enc_cfg) k) /\
    (forall a, a <> self -> h2 !! a = h !! a).
Proof.
  intros Hc. simpl. rewrite !setter_stores. simpl. split; [done|].
  unfold store_field. rewrite Hc, lookup_insert_eq.
  eexists. split; [by rewrite lookup_insert_eq|]. simpl.
  split; [apply assign_same|]. split.
  { intros Hne. rewrite assign_other by congruence. apply assign_same. }
  split.
  { intros k Hkf Hkg. rewrite assign_other by done. by rewrite assign_other. }
  intros a Ha. by rewrite !lookup_insert_ne by congruence.
Qed.

Lemma setter_chain_witness :
  snd (setter F_g_h 1080 (snd (setter F_g_w 1920 1 {[1 := mk_AV1EncoderConfig zeroed_cfg]}))
         (fst (setter F_g_w 1920 1 {[1 := mk_AV1EncoderConfig zeroed_cfg]}))) = 1 /\
  exists c2 : AV1EncoderConfig,
    fst (setter F_g_h 1080 (snd (setter F_g_w 1920 1 {[1 := mk_AV1EncoderConfig zeroed_cfg]}))
           (fst (setter F_g_w 1920 1 {[1 := mk_AV1EncoderConfig zeroed_cfg]}))) !! 1 = Some c2 /\
    c2.(enc_cfg) F_g_h = 1080 /\
    (F_g_h <> F_g_w -> c2.(enc_cfg) F_g_w = 1920) /\
    (forall k, k <> F_g_w -> k <> F_g_h -> c2.(enc_cfg) k = zeroed_cfg k) /\
    (forall a, a <> 1 ->
       fst (setter F_g_h 1080 (snd (setter F_g_w 1920 1 {[1 := mk_AV1EncoderConfig zeroed_cfg]}))
              (fst (setter F_g_w 1920 1 {[1 := mk_AV1EncoderConfig zeroed_cfg]}))) !! a =
       ({[1 := mk_AV1EncoderConfig zeroed_cfg]} : cfg_heap) !! a).
Proof.
  exact (setter_chain F_g_w F_g_h 1920 1080 1 {[1 := mk_AV1EncoderConfig zeroed_cfg]}
           (mk_AV1EncoderConfig zeroed_cfg) ltac:(by rewrite lookup_singleton_eq)).
Defined.
